(** * BluetoothTerminal: framing, chunking and command dispatch

    A shallow embedding of the [BluetoothTerminal] class (the terminal
    script of the repository) and the properties of its control-frame
    codec, chunk splitter, command dispatcher and promise chains.

    JavaScript values are modelled as the class uses them: numbers that
    are integers as [Z] (every number the class computes is an integer of
    magnitude below 2^53, where doubles are exact), 32-bit bitwise
    operators with their wrap-around written out, strings as lists of
    UTF-16 code units, typed arrays and data views as lists of bytes,
    exceptions as a result type, and promises as computations that are run
    against a description of how the transport behaves. *)

From Stdlib Require Import ZArith List String Ascii Bool Lia DecimalString.
From Equations Require Import Equations.
Import ListNotations.
Local Open Scope Z_scope.

(** ** JavaScript primitives *)

Module JS.

(** [ToInt32]: reduce modulo 2^32 into the signed range. *)
Definition ToInt32 (z : Z) : Z :=
  let m := z mod 2 ^ 32 in
  if 2 ^ 31 <=? m then m - 2 ^ 32 else m.

(** [ToUint8]: what a store into a [Uint8Array] keeps of a number. *)
Definition ToUint8 (z : Z) : Z := z mod 256.

(** [a & b] *)
Definition bitand (a b : Z) : Z := Z.land (ToInt32 a) (ToInt32 b).

(** [a << n] *)
Definition shl (a n : Z) : Z := ToInt32 (Z.shiftl (ToInt32 a) (n mod 32)).

(** [a >> n], the sign-propagating shift. *)
Definition sar (a n : Z) : Z := Z.shiftr (ToInt32 a) (n mod 32).

(** A string is its sequence of UTF-16 code units. *)
Definition jsstring : Type := list Z.

(** The code units of an ASCII literal of the source. *)
Definition lit (s : string) : jsstring :=
  map (fun a => Z.of_nat (nat_of_ascii a)) (list_ascii_of_string s).

(** The primitive values the class handles. *)
Inductive Prim : Type :=
| PUndefined
| PNull
| PBool (b : bool)
| PNum (n : Z)
| PNaN
| PStr (s : jsstring).

(** [ToBoolean]: the falsy values are undefined, null, false, 0, NaN
    and the empty string. *)
Definition ToBoolean (v : Prim) : bool :=
  match v with
  | PUndefined | PNull | PNaN => false
  | PBool b => b
  | PNum n => negb (n =? 0)
  | PStr [] => false
  | PStr (_ :: _) => true
  end.

(** The Number nearest to a non-negative integer, ties to the even
    significand; [None] stands for Infinity.  The integers below 2^53 are
    Numbers themselves; [PNum z] with [z] not a Number stands for the
    Number that the literal [z] denotes. *)
Definition nearestNumber (z : Z) : option Z :=
  if z <? 2 ^ 53 then Some z
  else
    let shift := Z.log2 z - 52 in
    let q := Z.shiftr z shift in
    let r := z - Z.shiftl q shift in
    let half := 2 ^ (shift - 1) in
    let q := if (half <? r) || ((r =? half) && Z.odd q) then q + 1 else q in
    let v := Z.shiftl q shift in
    if 2 ^ 1024 <=? v then None else Some v.

(** The decimal digits of a non-negative integer, and how many they are. *)
Definition digitsOf (z : Z) : string := NilZero.string_of_int (Z.to_int z).

Definition digitCount (z : Z) : Z := Z.of_nat (String.length (digitsOf z)).

Definition roundsTo (candidate v : Z) : bool :=
  match nearestNumber candidate with
  | Some x => x =? v
  | None => false
  end.

(** The integer with the fewest significant digits, [k] of them or more,
    that the Number [v] of [d] digits is the nearest Number to; of two
    with as few digits the one closer to [v], and of two as close the one
    whose last digit is even. *)
Fixpoint shortestFrom (fuel : nat) (k d v : Z) : Z :=
  match fuel with
  | O => v
  | S fuel' =>
      if d <? k then v
      else
        let scale := 10 ^ (d - k) in
        let lo := v / scale * scale in
        let hi := lo + scale in
        if roundsTo lo v && roundsTo hi v then
          if v - lo <? hi - v then lo
          else if hi - v <? v - lo then hi
          else if Z.even (v / scale) then lo else hi
        else if roundsTo lo v then lo
        else if roundsTo hi v then hi
        else shortestFrom fuel' (k + 1) d v
  end.

(** Seventeen significant digits tell any two Numbers apart. *)
Definition shortest (v : Z) : Z := shortestFrom 17 1 (digitCount v) v.

Fixpoint dropZeros (l : list ascii) : list ascii :=
  match l with
  | "0"%char :: l' => dropZeros l'
  | _ => l
  end.

(** Up to 21 digits are written out; beyond that the significant digits
    are followed by the exponent. *)
Definition writeDigits (value : Z) : string :=
  let n := digitCount value in
  if n <=? 21 then digitsOf value
  else
    match rev (dropZeros (rev (list_ascii_of_string (digitsOf value)))) with
    | [] => digitsOf value
    | first :: [] =>
        String first ("e+" ++ digitsOf (n - 1))
    | first :: more =>
        String first ("." ++ string_of_list_ascii more ++ "e+" ++ digitsOf (n - 1))
    end.

Definition positiveToString (z : Z) : string :=
  match nearestNumber z with
  | None => "Infinity"
  | Some v => if v <? 2 ^ 53 then digitsOf v else writeDigits (shortest v)
  end.

(** [String(n)] for a number: as few significant digits as tell the
    Number from its neighbours, which for an integer below 2^53 are all
    its digits. *)
Definition numberToString (n : Z) : string :=
  if n =? 0 then "0"
  else if n <? 0 then "-" ++ positiveToString (- n)
  else positiveToString n.

(** [String(v)] *)
Definition ToString (v : Prim) : jsstring :=
  match v with
  | PUndefined => lit "undefined"
  | PNull => lit "null"
  | PBool true => lit "true"
  | PBool false => lit "false"
  | PNum n => lit (numberToString n)
  | PNaN => lit "NaN"
  | PStr s => s
  end.

(** [a || b] *)
Definition or (a b : Prim) : Prim := if ToBoolean a then a else b.

(** [a + b] when the left operand is a string: concatenation. *)
Definition concat (a : jsstring) (b : Prim) : jsstring := a ++ ToString b.

Definition hexDigit (d : Z) : Z := if d <? 10 then 48 + d else 87 + d.

(** [b.toString(16)] for a byte [b]: lower-case digits, no padding. *)
Definition toString16 (b : Z) : jsstring :=
  if b <? 16 then [hexDigit b] else [hexDigit (b / 16); hexDigit (b mod 16)].

(** Exceptions and rejection reasons.  The messages of the errors the
    engine raises itself differ between engines and are left out; a
    [TypeError] keeps the name of the member that was read from null or
    undefined. *)
Inductive JSError : Type :=
| Error_ (message : string)      (* new Error(message) *)
| TypeError_ (member : string)   (* member access on null or undefined *)
| RangeError_                    (* DataView read outside its bounds *)
| SyntaxError_                   (* malformed regular expression *)
| DOMException_ (name : string). (* raised by the Web Bluetooth API *)

Inductive Result (A : Type) : Type :=
| Ok (a : A)
| Throw (e : JSError).
Arguments Ok {A} a.
Arguments Throw {A} e.

(** [new Uint8Array(new ArrayBuffer(n))] *)
Definition Uint8Array (n : nat) : list Z := repeat 0 n.

(** [a[i] = v] on a [Uint8Array]; a store outside the array is ignored. *)
Fixpoint store (a : list Z) (i : nat) (v : Z) : list Z :=
  match a, i with
  | [], _ => []
  | _ :: a', O => ToUint8 v :: a'
  | x :: a', S i' => x :: store a' i' v
  end.

(** [view.getUint8(i)] on a [DataView] over the bytes [view]. *)
Definition getUint8 (view : list Z) (i : nat) : Result Z :=
  match nth_error view i with
  | Some b => Ok b
  | None => Throw RangeError_
  end.

End JS.
Import JS.

(** ** The terminal object and its surroundings *)

(** Handles of the Web Bluetooth objects the class keeps references to. *)
Record Device : Type := mkDevice { deviceHandle : nat; name : jsstring }.
Definition Characteristic : Type := nat.

(** The fields of a [BluetoothTerminal] instance. *)
Record BluetoothTerminal : Type := mkTerminal {
  _receiveBuffer : jsstring;
  _maxCharacteristicValueLength : nat;
  _device : option Device;
  _characteristic : option Characteristic;
  _deviceId : Prim;
  _rfIdNumber : Prim;
  _serviceUuid : Prim;
  _characteristicUuid : Prim;
  _receiveSeparator : jsstring;
  _sendSeparator : jsstring
}.

(** An argument of a [_log] call. *)
Inductive LogArg : Type :=
| LStr (s : jsstring)
| LPrim (v : Prim)
| LErr (e : JSError)
| LCharacteristic (c : option Characteristic).

(** How a promise has settled, if it has. *)
Inductive Outcome (A : Type) : Type :=
| Fulfilled (a : A)
| Rejected (e : JSError)
| Pending.
Arguments Fulfilled {A} a.
Arguments Rejected {A} e.
Arguments Pending {A}.

(** What happens on the characteristic, oldest first: [writeValue] is
    called with some bytes, and later the promise of the [n]-th call
    (counting from 0) settles. *)
Inductive TransportEvent : Type :=
| WriteValue (c : Characteristic) (bytes : list Z)
| WriteSettled (n : nat) (o : Outcome unit).

(** What the class does to the outside: the calls of [console.log], the
    traffic on the characteristic, the calls of the [receive] override
    point, the listeners it has attached, and the connection flag of the
    GATT server of the device. *)
Record World : Type := mkWorld {
  console : list (list LogArg);
  transport : list TransportEvent;
  received : list jsstring;
  disconnectionListener : bool;
  valueListeners : list Characteristic;
  gattConnected : bool
}.

Definition isWrite (e : TransportEvent) : bool :=
  match e with WriteValue _ _ => true | WriteSettled _ _ => false end.

(** The [writeValue] calls made so far. *)
Definition written (w : World) : list TransportEvent :=
  filter isWrite (transport w).

(** Synchronous code: it reads and updates the instance and the world and
    either returns or throws. *)
Definition JSM (A : Type) : Type :=
  BluetoothTerminal -> World -> Result A * BluetoothTerminal * World.

Definition ret {A} (a : A) : JSM A := fun t w => (Ok a, t, w).

Definition throw {A} (e : JSError) : JSM A := fun t w => (Throw e, t, w).

Definition bind {A B} (c : JSM A) (k : A -> JSM B) : JSM B :=
  fun t w =>
    match c t w with
    | (Ok a, t', w') => k a t' w'
    | (Throw e, t', w') => (Throw e, t', w')
    end.

(** [try { c } catch (err) { h err }] *)
Definition try_catch {A} (c : JSM A) (h : JSError -> JSM A) : JSM A :=
  fun t w =>
    match c t w with
    | (Ok a, t', w') => (Ok a, t', w')
    | (Throw e, t', w') => h e t' w'
    end.

Definition lift {A} (r : Result A) : JSM A := fun t w => (r, t, w).

Definition this : JSM BluetoothTerminal := fun t w => (Ok t, t, w).

Declare Scope js_scope.
Delimit Scope js_scope with js.
Notation "x <- c ;; k" := (bind c (fun x => k))
  (at level 61, c at next level, right associativity) : js_scope.
Notation "c ;; k" := (bind c (fun _ => k))
  (at level 61, right associativity) : js_scope.
Local Open Scope js_scope.

Definition set_deviceId (v : Prim) : JSM unit := fun t w =>
  (Ok tt,
   mkTerminal (_receiveBuffer t) (_maxCharacteristicValueLength t) (_device t)
     (_characteristic t) v (_rfIdNumber t) (_serviceUuid t)
     (_characteristicUuid t) (_receiveSeparator t) (_sendSeparator t),
   w).

Definition set_rfIdNumber (v : Prim) : JSM unit := fun t w =>
  (Ok tt,
   mkTerminal (_receiveBuffer t) (_maxCharacteristicValueLength t) (_device t)
     (_characteristic t) (_deviceId t) v (_serviceUuid t)
     (_characteristicUuid t) (_receiveSeparator t) (_sendSeparator t),
   w).

Definition set_characteristic (c : option Characteristic) : JSM unit :=
  fun t w =>
  (Ok tt,
   mkTerminal (_receiveBuffer t) (_maxCharacteristicValueLength t) (_device t)
     c (_deviceId t) (_rfIdNumber t) (_serviceUuid t)
     (_characteristicUuid t) (_receiveSeparator t) (_sendSeparator t),
   w).

Definition set_device (d : option Device) : JSM unit := fun t w =>
  (Ok tt,
   mkTerminal (_receiveBuffer t) (_maxCharacteristicValueLength t) d
     (_characteristic t) (_deviceId t) (_rfIdNumber t) (_serviceUuid t)
     (_characteristicUuid t) (_receiveSeparator t) (_sendSeparator t),
   w).

(** [_log(...messages)]: one [console.log] call with these arguments. *)
Definition _log (messages : list LogArg) : JSM unit := fun t w =>
  (Ok tt, t,
   mkWorld (console w ++ [messages]) (transport w) (received w)
     (disconnectionListener w) (valueListeners w) (gattConnected w)).

Definition emit (e : TransportEvent) : JSM unit := fun t w =>
  (Ok tt, t,
   mkWorld (console w) (transport w ++ [e]) (received w)
     (disconnectionListener w) (valueListeners w) (gattConnected w)).

(** [characteristic.writeValue(bytes)], as far as the call itself goes: a
    null or undefined characteristic has no [writeValue] and the member
    access throws; otherwise the write is handed to the transport.  The
    call returns the number of the write, which identifies the promise
    that [writeValue] returns. *)
Definition writeValue (c : option Characteristic) (bytes : list Z) : JSM nat :=
  match c with
  | None => throw (TypeError_ "writeValue")
  | Some ch =>
      n <- (fun t w => (Ok (List.length (written w)), t, w)) ;;
      emit (WriteValue ch bytes) ;;
      ret n
  end.

(** ** FrameCodec and CommandDispatcher *)

(** The array [newData] that [_sendToDevice(command, data)] fills in. *)
Definition frame (command data : Z) : list Z :=
  let newData := Uint8Array 11 in
  let newData := store newData 0 command in
  let newData := store newData 1 (sar (bitand data 0xFF000000) 24) in
  let newData := store newData 2 (sar (bitand data 0x00FF0000) 16) in
  let newData := store newData 3 (sar (bitand data 0x0000FF00) 8) in
  let newData := store newData 4 (bitand data 0xFF0000FF) in
  let newData := store newData 5 0 in
  let newData := store newData 6 0 in
  let newData := store newData 7 0 in
  let newData := store newData 8 0 in
  let newData := store newData 9 254 in
  let newData := store newData 10 10 in
  newData.

(** [_sendToDevice(command, data)]: build the frame and write it, all
    inside one [try]; the promise that [writeValue] returns is dropped. *)
Definition _sendToDevice (command data : Z) : JSM unit :=
  try_catch
    (let newData := frame command data in
     _log [LStr (concat (lit "Send Data to Device for command") (PNum command))] ;;
     t <- this ;;
     writeValue (_characteristic t) newData ;;
     _log [LStr (concat (lit "Sent Data to Device for command") (PNum command))])
    (fun err => _log [LErr err]).

Definition checkRFIDExists : JSM bool := ret true.

(** [_connectionDataReceive(command, data, handsakeCommand)] *)
Definition _connectionDataReceive (command : Z) (data : Prim)
    (handsakeCommand : Z) : JSM unit :=
  if negb (handsakeCommand =? 253) then ret tt
  else if command =? 21 then
    set_deviceId data ;;
    let deviceFound := true in
    _log [LStr (concat (lit "21 Receive") data)] ;;
    if deviceFound then
      _sendToDevice command 1 ;;
      _log [LStr (lit "21 Send 1")]
    else
      _sendToDevice command 0 ;;
      _log [LStr (lit "21 Send 0")]
  else if command =? 31 then
    set_rfIdNumber data ;;
    _log [LStr (lit "RFID Number"); LPrim data] ;;
    exists_ <- checkRFIDExists ;;
    if negb exists_ then
      _log [LStr (lit "RFID Number exists")] ;;
      _sendToDevice command 0
    else ret tt
  else if command =? 41 then
    _sendToDevice command 1
  else if command =? 42 then
    let t := 2 * 1000 in
    _sendToDevice command t
  else if command =? 43 then
    let price := 1 * 100 in
    _sendToDevice command price
  else if command =? 44 then
    let at_ := 10 * 100 in
    _sendToDevice command at_
  else if command =? 32 then
    _log [LStr (concat (lit "Finish Pouring Due to :") (PNum command))]
  else if command =? 33 then
    _log [LStr (concat (lit "Finish Pouring Due to :") (PNum command))]
  else if command =? 34 then
    _log [LStr (concat (lit "Finish Pouring Due to :") (PNum command))]
  else if command =? 35 then
    _log [LStr (concat (lit "Finish Pouring Due to :") (PNum command))]
  else if command =? 36 then
    let lastAmount1 := data in
    _log [LStr (concat (lit "Start Pouring Continue") lastAmount1)]
  else if command =? 51 then
    let lastAmount := data in
    _log [LStr (concat (lit "Finish Pouring") lastAmount)]
  else ret tt.

Definition _tapClosed : JSM unit := _sendToDevice 45 1.

Definition _startPour : JSM unit := _sendToDevice 31 1.

(** The payload the handler computes when the frame is not a device-id
    announcement: [(t1 << 24) + (t2 << 16) + (t3 << 8) + t4]. *)
Definition payload32 (t1 t2 t3 t4 : Z) : Z :=
  shl t1 24 + shl t2 16 + shl t3 8 + t4.

(** The first half of [_handleCharacteristicValueChanged(event)], with
    [value] the bytes of [event.target.value]: the reads of the data view
    and the computation of [total]; it yields [command], [total] and
    [handsakeCommand]. *)
Definition decodeFrame (value : list Z) : JSM (Z * Prim * Z) :=
  _log [LStr (lit "Data Received")] ;;
  command <- lift (getUint8 value 0) ;;
  handsakeCommand <- lift (getUint8 value 9) ;;
  t1 <- lift (getUint8 value 1) ;;
  t2 <- lift (getUint8 value 2) ;;
  t3 <- lift (getUint8 value 3) ;;
  t4 <- lift (getUint8 value 4) ;;
  t5 <- lift (getUint8 value 5) ;;
  t6 <- lift (getUint8 value 6) ;;
  t7 <- lift (getUint8 value 7) ;;
  t8 <- lift (getUint8 value 8) ;;
  if (command =? 21) && (handsakeCommand =? 253) then
    _log [LStr (lit "Receive command found")] ;;
    let total :=
      toString16 t1 ++ toString16 t2 ++ toString16 t3 ++ toString16 t4 ++
      toString16 t5 ++ toString16 t6 ++ toString16 t7 ++ toString16 t8 in
    _log [LStr (concat (lit "Long device id - ") (PStr total))] ;;
    ret (command, PStr total, handsakeCommand)
  else
    ret (command, PNum (payload32 t1 t2 t3 t4), handsakeCommand).

(** [_handleCharacteristicValueChanged(event)]: decode, then dispatch.
    The text path of the handler (decode the bytes as text, cut at the
    receive separator, call [receive]) is commented out in the source;
    what is left treats every notification as a frame. *)
Definition _handleCharacteristicValueChanged (value : list Z) : JSM unit :=
  frame <- decodeFrame value ;;
  let '(command, total, handsakeCommand) := frame in
  _connectionDataReceive command total handsakeCommand.

(** A freshly constructed terminal (the constructor's defaults), and an
    untouched world. *)
Definition newTerminal : BluetoothTerminal :=
  mkTerminal [] 20%nat None None PNull PNull (PNum 0x0001) (PNum 0x0003)
    (lit (String (ascii_of_nat 10) EmptyString))
    (lit (String (ascii_of_nat 10) EmptyString)).

Definition newWorld : World := mkWorld [] [] [] false [] false.

(** A terminal whose characteristic has been cached by a connect. *)
Definition connectedTerminal (d : Device) (c : Characteristic) :
    BluetoothTerminal :=
  mkTerminal [] 20%nat (Some d) (Some c) PNull PNull (PNum 0x0001) (PNum 0x0003)
    (lit (String (ascii_of_nat 10) EmptyString))
    (lit (String (ascii_of_nat 10) EmptyString)).

Definition someDevice : Device := mkDevice 0%nat (lit "Tap").

(** ** ChunkSplitter *)

Definition isEmpty (s : jsstring) : bool :=
  match s with [] => true | _ :: _ => false end.

(** Line terminators of the regular-expression grammar: LF, CR, U+2028
    and U+2029. *)
Definition isLineTerminator (c : Z) : bool :=
  (c =? 10) || (c =? 13) || (c =? 0x2028) || (c =? 0x2029).

(** [.] without the [s] flag: any code unit but a line terminator. *)
Definition dot (c : Z) : bool := negb (isLineTerminator c).

(** The group [(.|[\r\n])]. *)
Definition group (c : Z) : bool := dot c || ((c =? 13) || (c =? 10)).

(** The greedy quantifier: the longest run of at most [n] code units of
    the group at the start of [s], and what follows it. *)
Fixpoint upTo (n : nat) (s : jsstring) : jsstring * jsstring :=
  match n, s with
  | S n', c :: s' =>
      if group c then let (m, r) := upTo n' s' in (c :: m, r) else ([], s)
  | _, _ => ([], s)
  end.

Lemma upTo_rest_length (n : nat) (s : jsstring) :
  (List.length (snd (upTo n s)) <= List.length s)%nat.
Proof.
  revert s; induction n as [|n IH]; intros [|c s]; simpl; try lia.
  destruct (group c); simpl; try lia.
  specialize (IH s). destruct (upTo n s); simpl in *; lia.
Qed.

(** All matches of [/(.|[\r\n]){1,n}/g] in [s], for [n >= 1]: a match
    starts at the first code unit of the group at or after the end of the
    previous match and takes up to [n] of them; a code unit outside the
    group is skipped. *)
Equations? matchAll (n : nat) (s : jsstring) : list jsstring
    by wf (List.length s) lt :=
  matchAll n [] := [];
  matchAll n (c :: s') :=
    if group c
    then (c :: fst (upTo (Nat.pred n) s')) :: matchAll n (snd (upTo (Nat.pred n) s'))
    else matchAll n s'.
Proof.
  pose proof (upTo_rest_length (Nat.pred n) s'). simpl. lia.
Qed.

(** [_splitByLength(string, length)]: [String.prototype.match] with a
    global expression returns the array of matches, or null when there is
    none.  [{1,0}] is not a quantifier and the [RegExp] constructor
    throws. *)
Definition _splitByLength (string : jsstring) (length : nat) :
    Result (option (list jsstring)) :=
  match length with
  | O => Throw SyntaxError_
  | S _ =>
      match matchAll length string with
      | [] => Ok None
      | chunks => Ok (Some chunks)
      end
  end.

(** [new TextEncoder().encode(s)]: UTF-8, an unpaired surrogate becoming
    U+FFFD. *)
Fixpoint encode (s : jsstring) : list Z :=
  match s with
  | [] => []
  | c :: s' =>
      if c <? 0x80 then c :: encode s'
      else if c <? 0x800 then
        (0xC0 + c / 64) :: (0x80 + c mod 64) :: encode s'
      else if (0xD800 <=? c) && (c <? 0xDC00) then
        match s' with
        | d :: s'' =>
            if (0xDC00 <=? d) && (d <? 0xE000) then
              let cp := 0x10000 + (c - 0xD800) * 1024 + (d - 0xDC00) in
              (0xF0 + cp / 262144) :: (0x80 + (cp / 4096) mod 64) ::
              (0x80 + (cp / 64) mod 64) :: (0x80 + cp mod 64) :: encode s''
            else 0xEF :: 0xBF :: 0xBD :: encode s'
        | [] => [0xEF; 0xBF; 0xBD]
        end
      else if (0xDC00 <=? c) && (c <? 0xE000) then
        0xEF :: 0xBF :: 0xBD :: encode s'
      else
        (0xE0 + c / 4096) :: (0x80 + (c / 64) mod 64) :: (0x80 + c mod 64) ::
        encode s'
  end.

Definition lf : jsstring := [10].

(** ** ConnectionSession: disconnecting *)

Definition set_world (f : World -> World) : JSM unit := fun t w => (Ok tt, t, f w).

Definition removeDisconnectionListener (w : World) : World :=
  mkWorld (console w) (transport w) (received w) false (valueListeners w)
    (gattConnected w).

Definition addDisconnectionListener (w : World) : World :=
  mkWorld (console w) (transport w) (received w) true (valueListeners w)
    (gattConnected w).

Definition removeValueListener (c : Characteristic) (w : World) : World :=
  mkWorld (console w) (transport w) (received w) (disconnectionListener w)
    (filter (fun c' => negb (Nat.eqb c c')) (valueListeners w))
    (gattConnected w).

Definition addValueListener (c : Characteristic) (w : World) : World :=
  mkWorld (console w) (transport w) (received w) (disconnectionListener w)
    (if existsb (Nat.eqb c) (valueListeners w) then valueListeners w
     else valueListeners w ++ [c])
    (gattConnected w).

Definition set_gattConnected (b : bool) (w : World) : World :=
  mkWorld (console w) (transport w) (received w) (disconnectionListener w)
    (valueListeners w) b.

Definition quote : jsstring := [34].

(** [_disconnectFromDevice(device)] *)
Definition _disconnectFromDevice (device : option Device) : JSM unit :=
  match device with
  | None => ret tt
  | Some device =>
      _log [LStr (lit "Disconnecting from " ++ quote ++ name device ++ quote ++
                  lit " bluetooth device...")] ;;
      set_world removeDisconnectionListener ;;
      connected <- (fun t w => (Ok (gattConnected w), t, w)) ;;
      if negb connected then
        _log [LStr (quote ++ name device ++ quote ++
                    lit " bluetooth device is already disconnected")]
      else
        set_world (set_gattConnected false) ;;
        _log [LStr (quote ++ name device ++ quote ++
                    lit " bluetooth device disconnected")]
  end.

(** [disconnect()] *)
Definition disconnect : JSM unit :=
  t <- this ;;
  _disconnectFromDevice (_device t) ;;
  match _characteristic t with
  | Some c =>
      set_world (removeValueListener c) ;;
      set_characteristic None
  | None => ret tt
  end ;;
  set_device None.

(** ** Promises *)

(** A promise is what happens, and how it settles, once the event loop
    gets to it: the callbacks chained on it run one after another on the
    single thread of the page. *)
Definition Promise (A : Type) : Type :=
  BluetoothTerminal -> World -> Outcome A * BluetoothTerminal * World.

(** [Promise.resolve(a)] and [Promise.reject(e)] *)
Definition resolve {A} (a : A) : Promise A := fun t w => (Fulfilled a, t, w).
Definition reject {A} (e : JSError) : Promise A := fun t w => (Rejected e, t, w).

(** [p.then(cb)]: the callback runs when [p] is fulfilled; what it
    returns settles the new promise, an exception it throws rejects it; a
    rejection of [p] is passed on without running the callback. *)
Definition then_ {A B} (p : Promise A) (cb : A -> JSM (Promise B)) : Promise B :=
  fun t w =>
    match p t w with
    | (Fulfilled a, t1, w1) =>
        match cb a t1 w1 with
        | (Ok q, t2, w2) => q t2 w2
        | (Throw e, t2, w2) => (Rejected e, t2, w2)
        end
    | (Rejected e, t1, w1) => (Rejected e, t1, w1)
    | (Pending, t1, w1) => (Pending, t1, w1)
    end.

(** [p.catch(cb)] *)
Definition catch_ {A} (p : Promise A) (cb : JSError -> JSM (Promise A)) : Promise A :=
  fun t w =>
    match p t w with
    | (Rejected e, t1, w1) =>
        match cb e t1 w1 with
        | (Ok q, t2, w2) => q t2 w2
        | (Throw e', t2, w2) => (Rejected e', t2, w2)
        end
    | r => r
    end.

(** Handles of the remaining Web Bluetooth objects. *)
Definition Server : Type := nat.
Definition Service : Type := nat.

(** The behaviour of the browser, the device and the user, which the
    class does not control. *)
Record Environment : Type := mkEnvironment {
  (** [navigator.bluetooth]: absent in a browser without Web Bluetooth;
      otherwise how the promise of [requestDevice] settles. *)
  bluetooth : option (Outcome Device);
  (** how the promises of [device.gatt.connect()],
      [server.getPrimaryServices()], [service.getCharacteristic(uuid)] and
      [characteristic.startNotifications()] settle *)
  gattConnect : Device -> Outcome Server;
  getPrimaryServices : Server -> Outcome (list Service);
  getCharacteristic : Service -> Outcome Characteristic;
  startNotifications : Characteristic -> Outcome unit;
  (** how the promise of the [n]-th [writeValue] call settles *)
  writeSettles : nat -> Outcome unit;
  (** whether the page calls [disconnect()] while the [n]-th write is
      pending *)
  disconnectsDuring : nat -> bool
}.

Section Session.

Variable env : Environment.

(** The promise returned by the [n]-th [writeValue] call.  While the
    write is pending the page may call [disconnect()], also when the
    write never settles. *)
Definition writePromise (n : nat) : Promise unit := fun t w =>
  let '(_, t1, w1) :=
    (if disconnectsDuring env n then disconnect else ret tt) t w in
  match writeSettles env n with
  | Pending => (Pending, t1, w1)
  | o =>
      let '(_, t2, w2) := emit (WriteSettled n o) t1 w1 in
      (o, t2, w2)
  end.

(** [_writeToCharacteristic(characteristic, data)] *)
Definition _writeToCharacteristic (characteristic : option Characteristic)
    (data : jsstring) : JSM (Promise unit) :=
  n <- writeValue characteristic (encode data) ;;
  ret (writePromise n).

(** The promise chained for a further chunk:
    [new Promise((resolve, reject) => { ... })].  A promise settles
    once: after [reject] has been called, neither the exception of the
    executor nor the settlement of the write changes it.  There is no
    [return] after the [reject] call, so the write is attempted on the
    null characteristic too. *)
Definition chunkPromise (chunk : jsstring) : JSM (Promise unit) := fun t w =>
  let rejected :=
    match _characteristic t with
    | None => Some (Error_ "Device has been disconnected")
    | Some _ => None
    end in
  match _writeToCharacteristic (_characteristic t) chunk t w with
  | (Ok q, t1, w1) =>
      (Ok (fun t w =>
             let '(o, t2, w2) := q t w in
             (match rejected with Some e => Rejected e | None => o end, t2, w2)),
       t1, w1)
  | (Throw e, t1, w1) =>
      (Ok (reject (match rejected with Some e0 => e0 | None => e end)), t1, w1)
  end.

(** [chunks[0]] *)
Definition first (chunks : option (list jsstring)) : JSM jsstring :=
  match chunks with
  | None => throw (TypeError_ "0")
  | Some cs => ret (hd [] cs)
  end.

Definition rest (chunks : option (list jsstring)) : list jsstring :=
  match chunks with
  | None => []
  | Some cs => tl cs
  end.

(** [send(data)] *)
Definition send (data : Prim) : JSM (Promise unit) :=
  let data := ToString (or data (PStr [])) in
  if isEmpty data then ret (reject (Error_ "Data must be not empty"))
  else
    t <- this ;;
    let data := data ++ _sendSeparator t in
    chunks <- lift (_splitByLength data (_maxCharacteristicValueLength t)) ;;
    match _characteristic t with
    | None => ret (reject (Error_ "There is no connected device"))
    | Some _ =>
        chunk0 <- first chunks ;;
        promise <- _writeToCharacteristic (_characteristic t) chunk0 ;;
        ret (fold_left
               (fun promise chunk => then_ promise (fun _ => chunkPromise chunk))
               (rest chunks) promise)
    end.

(** [navigator.bluetooth.requestDevice(options)]: where
    [navigator.bluetooth] is undefined the member access throws. *)
Definition requestDevice : JSM (Promise Device) :=
  match bluetooth env with
  | None => throw (TypeError_ "requestDevice")
  | Some o => ret (fun t w => (o, t, w))
  end.

(** [_requestBluetoothDevice()]: the promise of the selected device, or
    undefined when the [catch] block has been entered. *)
Definition _requestBluetoothDevice : JSM (option (Promise Device)) :=
  _log [LStr (lit "Requesting bluetooth device...")] ;;
  _log [LStr (lit "New Code with UUID 1000")] ;;
  try_catch
    (p <- requestDevice ;;
     ret (Some (then_ p (fun device =>
       _log [LStr (quote ++ name device ++ quote ++
                   lit " bluetooth device selected")] ;;
       set_device (Some device) ;;
       set_world addDisconnectionListener ;;
       ret (resolve device)))))
    (fun ex => _log [LErr ex] ;; ret None).

(** [device.gatt.connect()] *)
Definition connectGatt (device : Device) : Promise Server := fun t w =>
  match gattConnect env device with
  | Fulfilled server => (Fulfilled server, t, set_gattConnected true w)
  | o => (o, t, w)
  end.

(** The body of [services.forEach(...)] followed by [return ct]: the
    promise of the last service's characteristic, or undefined. *)
Definition lastCharacteristic (services : list Service) :
    Promise (option Characteristic) :=
  match fold_left (fun _ service => Some service) services None with
  | None => resolve None
  | Some service => fun t w =>
      match getCharacteristic env service with
      | Fulfilled c => (Fulfilled (Some c), t, w)
      | Rejected e => (Rejected e, t, w)
      | Pending => (Pending, t, w)
      end
  end.

(** [_connectDeviceAndCacheCharacteristic(device)] *)
Definition _connectDeviceAndCacheCharacteristic (device : Device) :
    JSM (Promise (option Characteristic)) :=
  t <- this ;;
  connected <- (fun t w => (Ok (gattConnected w), t, w)) ;;
  match connected, _characteristic t with
  | true, Some c => ret (resolve (Some c))
  | _, _ =>
      _log [LStr (lit "Connecting to GATT server...")] ;;
      ret (then_
             (then_
                (then_ (connectGatt device)
                   (fun server =>
                      _log [LStr (lit "GATT server connected");
                            LStr (lit "Getting service...")] ;;
                      ret (fun t w => (getPrimaryServices env server, t, w))))
                (fun services =>
                   _log [LStr (lit "Service found");
                         LStr (lit "Getting characteristic...")] ;;
                   ret (lastCharacteristic services)))
             (fun characteristic =>
                _log [LStr (lit "Characteristic found")] ;;
                set_characteristic characteristic ;;
                ret (resolve characteristic)))
  end.

(** [_startNotifications(characteristic)] *)
Definition _startNotifications (characteristic : option Characteristic) :
    JSM (Promise unit) :=
  _log [LStr (lit "Starting notifications...")] ;;
  _log [LCharacteristic characteristic] ;;
  match characteristic with
  | None => throw (TypeError_ "startNotifications")
  | Some c =>
      ret (then_ (fun t w => (startNotifications env c, t, w))
             (fun _ =>
                _log [LStr (lit "Notifications started")] ;;
                set_world (addValueListener c) ;;
                ret (resolve tt)))
  end.

(** [_connectToDevice(device)]: [.then] is called on what the first
    operand evaluates to; on undefined that call throws. *)
Definition _connectToDevice (device : option Device) : JSM (Promise unit) :=
  start <- match device with
           | Some d => ret (Some (resolve d))
           | None => _requestBluetoothDevice
           end ;;
  match start with
  | None => throw (TypeError_ "then")
  | Some p =>
      ret (catch_
             (then_ (then_ p _connectDeviceAndCacheCharacteristic)
                _startNotifications)
             (fun error => _log [LErr error] ;; ret (reject error)))
  end.

(** [connect()] *)
Definition connect : JSM (Promise unit) :=
  t <- this ;;
  _connectToDevice (_device t).

End Session.

(** A synchronous call followed by the settlement of the promise it
    returned. *)
Definition settle {A} (c : JSM (Promise A)) (t : BluetoothTerminal) (w : World) :
    Result (Outcome A) * BluetoothTerminal * World :=
  match c t w with
  | (Ok p, t1, w1) => let '(o, t2, w2) := p t1 w1 in (Ok o, t2, w2)
  | (Throw e, t1, w1) => (Throw e, t1, w1)
  end.

(** The parts of an outcome of a run. *)
Definition resultOf {A} (r : A * BluetoothTerminal * World) : A := fst (fst r).
Definition instanceAfter {A} (r : A * BluetoothTerminal * World) :
    BluetoothTerminal := snd (fst r).
Definition worldAfter {A} (r : A * BluetoothTerminal * World) : World := snd r.

(** * Properties *)

(** ** CommandDispatcher *)

(** Logging leaves the instance and everything but the console alone. *)
Lemma _log_run (messages : list LogArg) (t : BluetoothTerminal) (w : World) :
  exists w', _log messages t w = (Ok tt, t, w') /\
    transport w' = transport w /\ received w' = received w.
Proof. eexists. split; [reflexivity | split; reflexivity]. Qed.

(** With a cached characteristic [_sendToDevice] writes the frame, once. *)
Lemma _sendToDevice_connected (command data : Z) (t : BluetoothTerminal)
    (w : World) (ch : Characteristic) :
  _characteristic t = Some ch ->
  exists w', _sendToDevice command data t w = (Ok tt, t, w') /\
    transport w' = transport w ++ [WriteValue ch (frame command data)] /\
    received w' = received w.
Proof.
  intros Hc. unfold _sendToDevice, try_catch, bind, this, writeValue.
  cbn. rewrite Hc. cbn. eexists. split; [reflexivity | split; reflexivity].
Qed.

(** Without one the member access throws, the exception is caught and
    logged, and nothing is written. *)
Lemma _sendToDevice_disconnected (command data : Z) (t : BluetoothTerminal)
    (w : World) :
  _characteristic t = None ->
  exists w', _sendToDevice command data t w = (Ok tt, t, w') /\
    transport w' = transport w /\ received w' = received w.
Proof.
  intros Hc. unfold _sendToDevice, try_catch, bind, this, writeValue.
  cbn. rewrite Hc. cbn. eexists. split; [reflexivity | split; reflexivity].
Qed.

(** The payload the dispatcher answers a query with. *)
Definition queryReply (command : Z) : Z :=
  if command =? 41 then 1
  else if command =? 42 then 2000
  else if command =? 43 then 100
  else 1000.

(** The big-endian reading of four bytes. *)
Definition bigEndian (b1 b2 b3 b4 : Z) : Z :=
  b1 * 2 ^ 24 + b2 * 2 ^ 16 + b3 * 2 ^ 8 + b4.

(** C8: a frame whose marker byte is not 253 is dropped by the dispatcher:
    the instance (so [_deviceId] and [_rfIdNumber]) and the world (so the
    traffic on the characteristic) are left as they were. *)
Theorem marker_other_than_253_ignored (command : Z) (data : Prim)
    (handsakeCommand : Z) (t : BluetoothTerminal) (w : World) :
  handsakeCommand <> 253 ->
  _connectionDataReceive command data handsakeCommand t w = (Ok tt, t, w).
Proof.
  intros H. unfold _connectionDataReceive.
  destruct (Z.eqb_spec handsakeCommand 253) as [E | _]; [contradiction | reflexivity].
Qed.

Lemma marker_other_than_253_ignored_witness :
  254 <> 253 /\
  _connectionDataReceive 21 (PNum 1) 254 (connectedTerminal someDevice 7%nat)
    newWorld = (Ok tt, connectedTerminal someDevice 7%nat, newWorld).
Proof.
  split; [lia | apply marker_other_than_253_ignored; lia].
Defined.

(** C9: a query 41, 42, 43 or 44 with marker 253 is answered by exactly one
    frame on the cached characteristic: the command byte is the query's,
    the four payload bytes read big-endian give 1, 2000, 100 and 1000, the
    marker is 254 and the terminator 10; the instance is left as it was. *)
Theorem queries_answered (command : Z) (data : Prim) (t : BluetoothTerminal)
    (w : World) (ch : Characteristic) :
  In command [41; 42; 43; 44] ->
  _characteristic t = Some ch ->
  exists w' b1 b2 b3 b4,
    _connectionDataReceive command data 253 t w = (Ok tt, t, w') /\
    transport w' =
      transport w ++ [WriteValue ch [command; b1; b2; b3; b4; 0; 0; 0; 0; 254; 10]] /\
    bigEndian b1 b2 b3 b4 = queryReply command.
Proof.
  intros Hin Hc.
  assert (Hcases : command = 41 \/ command = 42 \/ command = 43 \/ command = 44)
    by (simpl in Hin; intuition auto).
  destruct Hcases as [-> | [-> | [-> | ->]]];
    unfold _connectionDataReceive; cbn [Z.eqb Pos.eqb negb];
    match goal with
    | |- context [_sendToDevice ?c ?d t w] =>
        destruct (_sendToDevice_connected c d t w ch Hc) as (w' & Hs & Htr & _)
    end;
    exists w'; do 4 eexists; (split; [exact Hs | split; [rewrite Htr; reflexivity | reflexivity]]).
Qed.

Lemma queries_answered_witness :
  exists w',
    _connectionDataReceive 42 (PNum 0) 253 (connectedTerminal someDevice 7%nat)
      newWorld = (Ok tt, connectedTerminal someDevice 7%nat, w') /\
    transport w' = [WriteValue 7%nat [42; 0; 0; 7; 208; 0; 0; 0; 0; 254; 10]].
Proof.
  destruct (queries_answered 42 (PNum 0) (connectedTerminal someDevice 7%nat)
              newWorld 7%nat) as (w' & b1 & b2 & b3 & b4 & Hrun & Htr & _).
  - simpl. auto.
  - reflexivity.
  - exists w'. split; [exact Hrun |].
    cbv in Hrun. injection Hrun as <-. reflexivity.
Defined.

(** C10: a frame 31 with marker 253 stores its payload in [_rfIdNumber] and
    writes nothing, because [checkRFIDExists] answers true whatever the
    state; from the bytes of a notification the payload stored is the
    number [(t1 << 24) + (t2 << 16) + (t3 << 8) + t4]. *)
Theorem rfid_stored_without_reply :
  (forall t w, checkRFIDExists t w = (Ok true, t, w)) /\
  (forall data t w,
     exists t' w',
       _connectionDataReceive 31 data 253 t w = (Ok tt, t', w') /\
       _rfIdNumber t' = data /\ _deviceId t' = _deviceId t /\
       _characteristic t' = _characteristic t /\
       transport w' = transport w) /\
  (forall t1 t2 t3 t4 t5 t6 t7 t8 terminator t w,
     exists t' w',
       _handleCharacteristicValueChanged
         [31; t1; t2; t3; t4; t5; t6; t7; t8; 253; terminator] t w =
         (Ok tt, t', w') /\
       _rfIdNumber t' = PNum (payload32 t1 t2 t3 t4) /\
       _deviceId t' = _deviceId t /\
       transport w' = transport w).
Proof.
  split; [reflexivity | split].
  - intros. do 2 eexists. split; [reflexivity | cbn; auto].
  - intros. do 2 eexists. split; [reflexivity | cbn; auto].
Qed.

(** The dispatcher never touches the receive buffer and never calls
    [receive]. *)
Lemma dispatcher_leaves_text_alone (command : Z) (data : Prim)
    (handsakeCommand : Z) (t : BluetoothTerminal) (w : World) :
  exists r t' w',
    _connectionDataReceive command data handsakeCommand t w = (r, t', w') /\
    received w' = received w /\ _receiveBuffer t' = _receiveBuffer t.
Proof.
  destruct t as [rb ml dev [ch|] did rf su cu rs ss];
    unfold _connectionDataReceive;
    repeat match goal with
           | |- context [if ?c then _ else _] => destruct c
           end;
    do 3 eexists; (split; [reflexivity | split; reflexivity]).
Qed.

(** A data view of at least ten bytes is read without an exception. *)
Lemma decodeFrame_long (value : list Z) (t : BluetoothTerminal) (w : World) :
  (10 <= List.length value)%nat ->
  exists command total handsakeCommand w0,
    decodeFrame value t w = (Ok (command, total, handsakeCommand), t, w0) /\
    nth_error value 0 = Some command /\
    nth_error value 9 = Some handsakeCommand /\
    transport w0 = transport w /\ received w0 = received w.
Proof.
  intros Hlen.
  do 10 (destruct value as [|? value]; [simpl in Hlen; lia |]).
  unfold decodeFrame. cbn.
  destruct ((z =? 21) && (z8 =? 253)); cbn;
    do 4 eexists; (split; [reflexivity | repeat split]).
Qed.

(** A shorter one makes [getUint8] throw before anything is dispatched. *)
Lemma decodeFrame_short (value : list Z) (t : BluetoothTerminal) (w : World) :
  (List.length value < 10)%nat ->
  exists w0,
    decodeFrame value t w = (Throw RangeError_, t, w0) /\
    transport w0 = transport w /\ received w0 = received w.
Proof.
  intros Hlen.
  do 10 (destruct value as [|? value];
         [eexists; split; [reflexivity | split; reflexivity] |]).
  simpl in Hlen. lia.
Qed.

(** C1, as the code has it: fed the bytes [21,0,0,0,1,0,0,0,0,253,10], the
    handler stores in [_deviceId] the string "00010000" (the hexadecimal
    digits of the eight payload bytes, unpadded, one after another) and,
    on the cached characteristic, writes exactly one frame: command 21,
    payload bytes 0,0,0,1, marker 254, terminator 10. *)
Theorem handshake_stores_hex_string_and_replies (t : BluetoothTerminal)
    (w : World) (ch : Characteristic) :
  _characteristic t = Some ch ->
  exists t' w',
    _handleCharacteristicValueChanged [21; 0; 0; 0; 1; 0; 0; 0; 0; 253; 10] t w =
      (Ok tt, t', w') /\
    _deviceId t' = PStr (lit "00010000") /\
    _rfIdNumber t' = _rfIdNumber t /\
    transport w' =
      transport w ++ [WriteValue ch [21; 0; 0; 0; 1; 0; 0; 0; 0; 254; 10]].
Proof.
  intros Hc.
  destruct t as [rb ml dev c did rf su cu rs ss]. simpl in Hc. subst c.
  do 2 eexists. split; [cbv; reflexivity | cbn; auto].
Qed.

Lemma handshake_stores_hex_string_and_replies_witness :
  exists t' w',
    _handleCharacteristicValueChanged [21; 0; 0; 0; 1; 0; 0; 0; 0; 253; 10]
      (connectedTerminal someDevice 7%nat) newWorld = (Ok tt, t', w') /\
    _deviceId t' = PStr [48; 48; 48; 49; 48; 48; 48; 48] /\
    transport w' = [WriteValue 7%nat [21; 0; 0; 0; 1; 0; 0; 0; 0; 254; 10]].
Proof.
  destruct (handshake_stores_hex_string_and_replies
              (connectedTerminal someDevice 7%nat) newWorld 7%nat eq_refl)
    as (t' & w' & Hrun & Hid & _ & Htr).
  exists t', w'. repeat split; assumption.
Defined.

(** C1 as stated fails: the value stored is not the number 1. *)
Lemma handshake_does_not_store_number_1 :
  _deviceId
    (instanceAfter
       (_handleCharacteristicValueChanged [21; 0; 0; 0; 1; 0; 0; 0; 0; 253; 10]
          (connectedTerminal someDevice 7%nat) newWorld)) <> PNum 1.
Proof. cbv. discriminate. Qed.

(** C2, as the code has it: every notification is decoded as a frame,
    whatever its length.  The receive buffer is never changed and
    [receive] never called; a notification of fewer than ten bytes ends in
    the [RangeError] of the data view with nothing dispatched or written;
    one of ten bytes or more has byte 0 as command, byte 9 as marker and
    its payload handed to the dispatcher. *)
Theorem every_notification_decoded_as_frame (value : list Z)
    (t : BluetoothTerminal) (w : World) :
  (exists r t' w',
     _handleCharacteristicValueChanged value t w = (r, t', w') /\
     received w' = received w /\ _receiveBuffer t' = _receiveBuffer t) /\
  ((List.length value < 10)%nat ->
   exists w',
     _handleCharacteristicValueChanged value t w = (Throw RangeError_, t, w') /\
     transport w' = transport w) /\
  ((10 <= List.length value)%nat ->
   exists command total handsakeCommand w0,
     decodeFrame value t w = (Ok (command, total, handsakeCommand), t, w0) /\
     nth_error value 0 = Some command /\
     nth_error value 9 = Some handsakeCommand /\
     transport w0 = transport w /\
     _handleCharacteristicValueChanged value t w =
       _connectionDataReceive command total handsakeCommand t w0).
Proof.
  assert (Hshort : (List.length value < 10)%nat ->
    exists w', _handleCharacteristicValueChanged value t w =
                 (Throw RangeError_, t, w') /\
               transport w' = transport w /\ received w' = received w).
  { intros Hlen. destruct (decodeFrame_short value t w Hlen) as (w0 & Hd & Htr & Hrc).
    exists w0. unfold _handleCharacteristicValueChanged, bind. rewrite Hd. auto. }
  assert (Hlong : (10 <= List.length value)%nat ->
    exists command total handsakeCommand w0,
      decodeFrame value t w = (Ok (command, total, handsakeCommand), t, w0) /\
      nth_error value 0 = Some command /\
      nth_error value 9 = Some handsakeCommand /\
      transport w0 = transport w /\ received w0 = received w /\
      _handleCharacteristicValueChanged value t w =
        _connectionDataReceive command total handsakeCommand t w0).
  { intros Hlen.
    destruct (decodeFrame_long value t w Hlen)
      as (c & total & m & w0 & Hd & H0 & H9 & Htr & Hrc).
    exists c, total, m, w0. repeat split; try assumption.
    unfold _handleCharacteristicValueChanged, bind. rewrite Hd. reflexivity. }
  split; [| split].
  - destruct (Nat.lt_ge_cases (List.length value) 10) as [Hlen | Hlen].
    + destruct (Hshort Hlen) as (w' & Hrun & _ & Hrc).
      exists (Throw RangeError_), t, w'. auto.
    + destruct (Hlong Hlen) as (c & total & m & w0 & _ & _ & _ & _ & Hrc & Hrun).
      destruct (dispatcher_leaves_text_alone c total m t w0)
        as (r & t' & w' & Hdisp & Hrc' & Hbuf).
      exists r, t', w'. rewrite Hrun, Hdisp, Hrc', Hrc. auto.
  - intros Hlen. destruct (Hshort Hlen) as (w' & Hrun & Htr & _). eauto.
  - intros Hlen.
    destruct (Hlong Hlen) as (c & total & m & w0 & Hd & H0 & H9 & Htr & _ & Hrun).
    exists c, total, m, w0. auto.
Qed.

Lemma every_notification_decoded_as_frame_witness :
  (List.length [104; 105; 10] < 10)%nat /\
  exists w',
    _handleCharacteristicValueChanged [104; 105; 10]
      (connectedTerminal someDevice 7%nat) newWorld =
      (Throw RangeError_, connectedTerminal someDevice 7%nat, w') /\
    transport w' = transport newWorld.
Proof.
  assert (Hlen : (List.length [104; 105; 10] < 10)%nat) by (simpl; lia).
  split; [exact Hlen |].
  exact (proj1 (proj2 (every_notification_decoded_as_frame [104; 105; 10]
                         (connectedTerminal someDevice 7%nat) newWorld)) Hlen).
Defined.

(** C2 as stated fails twice.  The characters "h", "i", "\n" arriving as a
    notification deliver no message: the read of byte 9 throws.  And a
    notification of ten bytes, which is not the frame length of the claim,
    is dispatched as a frame all the same and answered. *)
Lemma notifications_are_not_routed_by_length :
  (resultOf
     (_handleCharacteristicValueChanged [104; 105; 10]
        (connectedTerminal someDevice 7%nat) newWorld) = Throw RangeError_ /\
   received
     (worldAfter
        (_handleCharacteristicValueChanged [104; 105; 10]
           (connectedTerminal someDevice 7%nat) newWorld)) <> [lit "hi"]) /\
  (received
     (worldAfter
        (_handleCharacteristicValueChanged [41; 0; 0; 0; 0; 0; 0; 0; 0; 253]
           (connectedTerminal someDevice 7%nat) newWorld)) = [] /\
   transport
     (worldAfter
        (_handleCharacteristicValueChanged [41; 0; 0; 0; 0; 0; 0; 0; 0; 253]
           (connectedTerminal someDevice 7%nat) newWorld)) =
     [WriteValue 7%nat [41; 0; 0; 0; 1; 0; 0; 0; 0; 254; 10]]).
Proof.
  split; split; try reflexivity. cbv. discriminate.
Qed.

(** ** FrameCodec *)

(** A mask whose bits [k .. k+7] are set keeps the byte at that place. *)
Lemma masked_byte (a mask k : Z) :
  0 <= k ->
  (forall i, 0 <= i < 8 -> Z.testbit mask (i + k) = true) ->
  ToUint8 (Z.shiftr (Z.land a mask) k) = (a / 2 ^ k) mod 256.
Proof.
  intros Hk Hmask. unfold ToUint8.
  change 256 with (2 ^ 8). rewrite <- !Z.land_ones by lia.
  apply Z.bits_inj'. intros i Hi.
  rewrite !Z.land_spec.
  destruct (Z.ltb_spec i 8) as [Hlt | Hge].
  - rewrite Z.ones_spec_low by lia. rewrite !andb_true_r.
    rewrite Z.shiftr_spec by lia. rewrite Z.land_spec.
    rewrite Hmask by lia. rewrite andb_true_r.
    rewrite <- Z.shiftr_div_pow2 by lia. rewrite Z.shiftr_spec by lia.
    reflexivity.
  - rewrite Z.ones_spec_high by lia. rewrite !andb_false_r. reflexivity.
Qed.

Ltac byte_positions i :=
  assert (i = 0 \/ i = 1 \/ i = 2 \/ i = 3 \/ i = 4 \/ i = 5 \/ i = 6 \/ i = 7)
    as [-> | [-> | [-> | [-> | [-> | [-> | [-> | ->]]]]]]] by lia;
  reflexivity.

(** Reducing to 32 bits does not change any of the four low bytes. *)
Lemma ToInt32_byte (p k : Z) :
  In k [0; 8; 16; 24] ->
  (ToInt32 p / 2 ^ k) mod 256 = (p / 2 ^ k) mod 256.
Proof.
  intros Hk. unfold ToInt32.
  assert (Hp : p mod 2 ^ 32 = p - 2 ^ 32 * (p / 2 ^ 32))
    by (pose proof (Z.div_mod p (2 ^ 32)); lia).
  assert (Hshape : exists d, ToInt32 p = p + 2 ^ 32 * d).
  { unfold ToInt32. destruct (2 ^ 31 <=? p mod 2 ^ 32).
    - exists (- (p / 2 ^ 32) - 1). lia.
    - exists (- (p / 2 ^ 32)). lia. }
  destruct Hshape as (d & Hd). fold (ToInt32 p). rewrite Hd.
  simpl in Hk.
  destruct Hk as [<- | [<- | [<- | [<- | []]]]].
  - replace (p + 2 ^ 32 * d) with (p + (2 ^ 32 * d) * 2 ^ 0) by lia.
    rewrite Z.div_add by lia.
    replace (p / 2 ^ 0 + 2 ^ 32 * d) with (p / 2 ^ 0 + (2 ^ 24 * d) * 256) by lia.
    apply Z.mod_add. lia.
  - replace (p + 2 ^ 32 * d) with (p + (2 ^ 24 * d) * 2 ^ 8) by lia.
    rewrite Z.div_add by lia.
    replace (p / 2 ^ 8 + 2 ^ 24 * d) with (p / 2 ^ 8 + (2 ^ 16 * d) * 256) by lia.
    apply Z.mod_add. lia.
  - replace (p + 2 ^ 32 * d) with (p + (2 ^ 16 * d) * 2 ^ 16) by lia.
    rewrite Z.div_add by lia.
    replace (p / 2 ^ 16 + 2 ^ 16 * d) with (p / 2 ^ 16 + (2 ^ 8 * d) * 256) by lia.
    apply Z.mod_add. lia.
  - replace (p + 2 ^ 32 * d) with (p + (2 ^ 8 * d) * 2 ^ 24) by lia.
    rewrite Z.div_add by lia.
    replace (p / 2 ^ 24 + 2 ^ 8 * d) with (p / 2 ^ 24 + d * 256) by lia.
    apply Z.mod_add. lia.
Qed.

(** The byte [k / 8] of the result of [(data & mask) >> k]. *)
Lemma shifted_masked_byte (data mask k : Z) :
  In k [8; 16; 24] ->
  (forall i, 0 <= i < 8 -> Z.testbit (ToInt32 mask) (i + k) = true) ->
  ToUint8 (sar (bitand data mask) k) = (data / 2 ^ k) mod 256.
Proof.
  intros Hk Hmask.
  assert (Hk' : In k [0; 8; 16; 24]) by (simpl in *; tauto).
  assert (Hmod : k mod 32 = k)
    by (simpl in Hk; destruct Hk as [<- | [<- | [<- | []]]]; reflexivity).
  assert (H0 : 0 <= k)
    by (simpl in Hk; destruct Hk as [<- | [<- | [<- | []]]]; lia).
  unfold sar, bitand, ToUint8. rewrite Hmod.
  rewrite Z.shiftr_div_pow2 by lia. rewrite ToInt32_byte by assumption.
  rewrite <- Z.shiftr_div_pow2 by lia.
  fold (ToUint8 (Z.shiftr (Z.land (ToInt32 data) (ToInt32 mask)) k)).
  rewrite masked_byte by assumption.
  apply ToInt32_byte. assumption.
Qed.

(** The encoder is a big-endian packing of the payload: the mask
    [0xFF0000FF] of the low byte lets bits 24 to 31 through, and the store
    into the [Uint8Array] drops them again. *)
Lemma frame_bytes (command data : Z) :
  frame command data =
    [command mod 256;
     (data / 2 ^ 24) mod 256; (data / 2 ^ 16) mod 256;
     (data / 2 ^ 8) mod 256; data mod 256;
     0; 0; 0; 0; 254; 10].
Proof.
  unfold frame. cbn [Uint8Array repeat store].
  repeat f_equal.
  - apply shifted_masked_byte; [simpl; auto |]. intros i Hi. byte_positions i.
  - apply shifted_masked_byte; [simpl; auto |]. intros i Hi. byte_positions i.
  - apply shifted_masked_byte; [simpl; auto |]. intros i Hi. byte_positions i.
  - unfold bitand.
    rewrite <- (Z.shiftr_0_r (Z.land (ToInt32 data) (ToInt32 4278190335))).
    rewrite masked_byte; [| lia |].
    + change (2 ^ 0) with 1. rewrite Z.div_1_r.
      pose proof (ToInt32_byte data 0) as H. change (2 ^ 0) with 1 in H.
      rewrite !Z.div_1_r in H. apply H. simpl; auto.
    + intros i Hi. byte_positions i.
Qed.

(** What the handler computes from four bytes is their big-endian
    reading reduced to the signed 32-bit range: [t1 << 24] is negative
    from [t1 = 128] on. *)
Lemma payload32_signed (b1 b2 b3 b4 : Z) :
  0 <= b1 < 256 -> 0 <= b2 < 256 -> 0 <= b3 < 256 -> 0 <= b4 < 256 ->
  payload32 b1 b2 b3 b4 = ToInt32 (bigEndian b1 b2 b3 b4).
Proof.
  intros H1 H2 H3 H4. unfold payload32, shl, bigEndian.
  change (24 mod 32) with 24. change (16 mod 32) with 16.
  change (8 mod 32) with 8.
  assert (Hsmall : forall b, 0 <= b < 256 -> ToInt32 b = b).
  { intros b Hb. unfold ToInt32. rewrite Z.mod_small by lia.
    destruct (Z.leb_spec (2 ^ 31) b); lia. }
  rewrite (Hsmall b1 H1), (Hsmall b2 H2), (Hsmall b3 H3).
  rewrite !Z.shiftl_mul_pow2 by lia.
  unfold ToInt32.
  rewrite (Z.mod_small (b1 * 2 ^ 24)) by lia.
  rewrite (Z.mod_small (b2 * 2 ^ 16)) by lia.
  rewrite (Z.mod_small (b3 * 2 ^ 8)) by lia.
  rewrite (Z.mod_small (b1 * 2 ^ 24 + b2 * 2 ^ 16 + b3 * 2 ^ 8 + b4)) by lia.
  destruct (Z.leb_spec (2 ^ 31) (b1 * 2 ^ 24));
    destruct (Z.leb_spec (2 ^ 31) (b2 * 2 ^ 16));
    destruct (Z.leb_spec (2 ^ 31) (b3 * 2 ^ 8));
    destruct (Z.leb_spec (2 ^ 31) (b1 * 2 ^ 24 + b2 * 2 ^ 16 + b3 * 2 ^ 8 + b4));
    lia.
Qed.

(** The bytes of a payload below 2^32 read back big-endian give it. *)
Lemma bigEndian_bytes (p : Z) :
  0 <= p < 2 ^ 32 ->
  bigEndian ((p / 2 ^ 24) mod 256) ((p / 2 ^ 16) mod 256)
    ((p / 2 ^ 8) mod 256) (p mod 256) = p.
Proof.
  intros Hp. unfold bigEndian.
  change (2 ^ 24) with 16777216. change (2 ^ 16) with 65536.
  change (2 ^ 8) with 256. change (2 ^ 32) with 4294967296 in Hp.
  Z.to_euclidean_division_equations. lia.
Qed.

(** Decoding an encoded frame gives the command back, and the payload
    reduced to the signed 32-bit range. *)
Lemma decode_encode (c p : Z) (t : BluetoothTerminal) (w : World) :
  0 <= c < 256 -> 0 <= p < 2 ^ 32 ->
  exists w',
    decodeFrame (frame c p) t w = (Ok (c, PNum (ToInt32 p), 254), t, w').
Proof.
  intros Hc Hp. rewrite frame_bytes.
  unfold decodeFrame. cbn [bind _log lift getUint8 nth_error].
  rewrite (Z.mod_small c) by lia.
  replace ((c =? 21) && (254 =? 253)) with false
    by (symmetry; apply andb_false_r).
  rewrite payload32_signed by (apply Z.mod_pos_bound; lia).
  rewrite bigEndian_bytes by assumption.
  eexists. reflexivity.
Qed.

(** So payloads below 2^31 make the round trip. *)
Lemma decode_encode_small (c p : Z) (t : BluetoothTerminal) (w : World) :
  0 <= c < 256 -> 0 <= p < 2 ^ 31 ->
  exists w', decodeFrame (frame c p) t w = (Ok (c, PNum p, 254), t, w').
Proof.
  intros Hc Hp.
  destruct (decode_encode c p t w Hc) as (w' & H); [lia |].
  exists w'. rewrite H. unfold ToInt32.
  rewrite Z.mod_small by lia.
  destruct (Z.leb_spec (2 ^ 31) p); [lia | reflexivity].
Qed.

(** C3 fails from payload 2^31 on: the frame the encoder builds for command
    41 and payload 2147483648 is [41,128,0,0,0,0,0,0,0,254,10], and the
    handler decodes its payload as -2147483648. *)
Theorem decode_encode_high_payload_negative :
  frame 41 2147483648 = [41; 128; 0; 0; 0; 0; 0; 0; 0; 254; 10] /\
  exists w',
    decodeFrame (frame 41 2147483648) newTerminal newWorld =
      (Ok (41, PNum (-2147483648), 254), newTerminal, w') /\
    PNum (-2147483648) <> PNum 2147483648.
Proof.
  split; [reflexivity |].
  eexists. split; [reflexivity | discriminate].
Qed.

(** ** ChunkSplitter *)

(** The group of the expression takes every code unit but U+2028 and
    U+2029: the alternative [[\r\n]] brings back only two of the four
    line terminators that the dot leaves out. *)
Lemma group_spec (c : Z) : group c = true <-> c <> 0x2028 /\ c <> 0x2029.
Proof.
  unfold group, dot, isLineTerminator.
  destruct (Z.eqb_spec c 10), (Z.eqb_spec c 13), (Z.eqb_spec c 0x2028),
    (Z.eqb_spec c 0x2029); cbn; split; intros H; try discriminate;
    try (split; lia); try reflexivity; lia.
Qed.

Definition separatorFree (s : jsstring) : Prop :=
  Forall (fun c => c <> 0x2028 /\ c <> 0x2029) s.

Lemma separatorFree_group (s : jsstring) :
  separatorFree s -> forallb group s = true.
Proof.
  induction 1 as [|c s Hc _ IH]; [reflexivity |].
  simpl. rewrite IH, (proj2 (group_spec c) Hc). reflexivity.
Qed.

(** On such a string the quantifier cuts at [n] code units. *)
Lemma upTo_cut (n : nat) (s : jsstring) :
  forallb group s = true -> upTo n s = (firstn n s, skipn n s).
Proof.
  revert s. induction n as [|n IH]; intros [|c s] H; try reflexivity.
  simpl in H. apply andb_prop in H as [Hc Hs].
  simpl. rewrite Hc, (IH s Hs). reflexivity.
Qed.

Lemma forallb_skipn {A} (f : A -> bool) (n : nat) (l : list A) :
  forallb f l = true -> forallb f (skipn n l) = true.
Proof.
  revert l. induction n as [|n IH]; intros [|x l] H; simpl; auto.
  simpl in H. apply andb_prop in H as [_ H]. auto.
Qed.

(** The matches of a string of the group tile it: they are not empty, at
    most [n] long, and concatenate to the string. *)
Lemma matchAll_tiles (n : nat) (s : jsstring) :
  (0 < n)%nat -> forallb group s = true ->
  List.concat (matchAll n s) = s /\
  Forall (fun c => (1 <= List.length c <= n)%nat) (matchAll n s).
Proof.
  intros Hn. remember (List.length s) as k eqn:Hk.
  revert s Hk. induction k as [k IH] using (well_founded_induction lt_wf).
  intros [|c s] Hk Hs; simp matchAll; [split; [reflexivity | constructor] |].
  simpl in Hs. apply andb_prop in Hs as [Hc Hs]. rewrite Hc.
  rewrite (upTo_cut _ _ Hs). cbn [fst snd].
  destruct (IH (List.length (skipn (Nat.pred n) s))) with (s := skipn (Nat.pred n) s)
    as [Hcat Hall].
  - subst k. simpl. rewrite length_skipn. lia.
  - reflexivity.
  - apply forallb_skipn. exact Hs.
  - split.
    + cbn [List.concat]. rewrite Hcat. cbn [app]. rewrite firstn_skipn. reflexivity.
    + constructor; [| exact Hall].
      cbn [List.length]. pose proof (firstn_le_length (Nat.pred n) s). 
      rewrite length_firstn. lia.
Qed.





(** ** TerminalFacade: send *)

(** The coercion [send] applies to its argument: [String(data || '')]. *)
Definition coerced (data : Prim) : jsstring := ToString (or data (PStr [])).

(** [send] returns, without having touched the instance or the world, a
    promise that is rejected with the error of the empty-data check. *)
Definition rejectsAsEmpty (env : Environment) (data : Prim)
    (t : BluetoothTerminal) (w : World) : Prop :=
  exists p,
    send env data t w = (Ok p, t, w) /\
    forall t' w',
      p t' w' = (Rejected (Error_ "Data must be not empty"), t', w').

Lemma app_one_neq {A} (l : list A) (x : A) : l ++ [x] <> l.
Proof.
  intros H. apply (f_equal (@List.length A)) in H.
  rewrite length_app in H. simpl in H. lia.
Qed.

(** C6, as the code has it: [send] rejects at once with the empty-data
    error, no write having been attempted, exactly when its argument is
    empty after the coercion the code applies, [String(data || '')].
    Under that coercion every falsy argument is empty, whatever its own
    string form; the empty string and null are two such arguments. *)
Theorem send_rejects_exactly_empty_data :
  (forall env data t w,
     rejectsAsEmpty env data t w <-> coerced data = []) /\
  (forall data, ToBoolean data = false -> coerced data = []) /\
  (forall env t w, rejectsAsEmpty env (PStr []) t w) /\
  (forall env t w, rejectsAsEmpty env PNull t w).
Proof.
  assert (Hif : forall env data t w,
            coerced data = [] -> rejectsAsEmpty env data t w).
  { intros env data t w H. unfold rejectsAsEmpty, send.
    fold (coerced data). rewrite H. cbn.
    eexists. split; [reflexivity | reflexivity]. }
  split; [| split; [| split; intros; apply Hif; reflexivity]].
  2: { intros data H. unfold coerced, or. rewrite H. reflexivity. }
  intros env data t w. split; [| apply Hif].
  intros (p & Hrun & Hp).
  destruct (coerced data) as [|c s] eqn:E; [reflexivity | exfalso].
  unfold send in Hrun. fold (coerced data) in Hrun. rewrite E in Hrun.
  cbn [isEmpty] in Hrun. unfold bind, this, lift in Hrun.
  destruct (_splitByLength ((c :: s) ++ _sendSeparator t)
              (_maxCharacteristicValueLength t)) as [chunks | e];
    [| discriminate].
  destruct (_characteristic t) as [ch |].
  - destruct chunks as [cs |]; cbn in Hrun; [| discriminate].
    injection Hrun as _ Hw.
    apply (f_equal transport) in Hw. cbn in Hw.
    exact (app_one_neq _ _ Hw).
  - cbn in Hrun. injection Hrun as <-.
    specialize (Hp t w). unfold reject in Hp. discriminate.
Qed.

(** The coercion takes every falsy argument to the empty string, so the
    number 0 is rejected like the empty string although [String(0)] is
    "0". *)
Lemma send_coerces_falsy_to_empty :
  coerced (PNum 0) = [] /\ coerced (PBool false) = [] /\ coerced PNaN = [] /\
  coerced PUndefined = [] /\ ToString (PNum 0) = lit "0".
Proof. repeat split. Qed.

(** The claim in the words of the specification: the rejection with the
    empty-data error comes exactly when the argument, coerced to a
    string, is empty. *)
Definition rejectsExactlyEmptyStrings : Prop :=
  forall env data t w, rejectsAsEmpty env data t w <-> ToString data = [].

(** C6 as stated fails: the number 0 coerced to a string is "0", which is
    not empty, and [send(0)] is rejected all the same with the error of
    the empty-data check, nothing having been written; so are
    [send(false)] and [send(NaN)]. *)
Lemma send_rejects_zero_though_its_string_is_not_empty :
  ToString (PNum 0) = lit "0" /\
  (forall env t w, rejectsAsEmpty env (PNum 0) t w) /\
  ToString (PBool false) = lit "false" /\
  (forall env t w, rejectsAsEmpty env (PBool false) t w) /\
  ToString PNaN = lit "NaN" /\
  (forall env t w, rejectsAsEmpty env PNaN t w) /\
  ~ rejectsExactlyEmptyStrings.
Proof.
  assert (H0 : forall env t w, rejectsAsEmpty env (PNum 0) t w)
    by (intros; eexists; split; reflexivity).
  repeat split; try exact H0;
    try (intros; eexists; split; reflexivity).
  intros Hclaim.
  pose proof (proj1 (Hclaim
                (mkEnvironment None (fun _ => Pending) (fun _ => Pending)
                   (fun _ => Pending) (fun _ => Pending) (fun _ => Pending)
                   (fun _ => false))
                (PNum 0) newTerminal newWorld) (H0 _ _ _)) as H.
  discriminate.
Qed.

(** [String(n)] on numbers of 2^53 and more: the digits that tell the
    number from its neighbours, then zeros, and from 10^21 on the
    exponent. *)
Lemma large_numbers_as_strings :
  ToString (PNum (2 ^ 60)) = lit "1152921504606847000" /\
  ToString (PNum (2 ^ 64)) = lit "18446744073709552000" /\
  ToString (PNum (10 ^ 21)) = lit "1e+21" /\
  ToString (PNum (2 ^ 70)) = lit "1.1805916207174113e+21" /\
  ToString (PNum (- (10 ^ 23))) = lit "-1e+23" /\
  ToString (PNum 9007199254740993) = lit "9007199254740992" /\
  ToString (PNum (2 ^ 1024)) = lit "Infinity".
Proof. vm_compute. repeat split. Qed.

(** ** ConnectionSession: connect *)

(** A browser without Web Bluetooth: [navigator.bluetooth] is undefined. *)
Definition noBluetooth : Environment :=
  mkEnvironment None (fun _ => Pending) (fun _ => Pending) (fun _ => Pending)
    (fun _ => Pending) (fun _ => Pending) (fun _ => false).

(** A rejection of the promise of [requestDevice] reaches the caller of
    [connect()]: this failure is not inside the [try] block when it
    happens. *)
Lemma connect_passes_on_request_rejection (env : Environment)
    (t : BluetoothTerminal) (w : World) (e : JSError) :
  _device t = None ->
  bluetooth env = Some (Rejected e) ->
  exists w',
    settle (connect env) t w = (Ok (Rejected e), t, w') /\
    transport w' = transport w /\
    exists logged, console w' = logged ++ [[LErr e]].
Proof.
  intros Hd Hb.
  unfold settle, connect, _connectToDevice, _requestBluetoothDevice,
    requestDevice, bind, this, try_catch.
  rewrite Hd, Hb. cbn.
  eexists. split; [reflexivity | split; [reflexivity |]].
  cbn. eexists. reflexivity.
Qed.

(** When [requestDevice] itself throws, the [catch] block of
    [_requestBluetoothDevice] logs the exception and the method returns
    undefined; [_connectToDevice] then calls [.then] on undefined. *)
Lemma connect_throws_when_request_throws (env : Environment)
    (t : BluetoothTerminal) (w : World) :
  _device t = None ->
  bluetooth env = None ->
  exists w',
    connect env t w = (Throw (TypeError_ "then"), t, w') /\
    transport w' = transport w /\
    exists logged, console w' = logged ++ [[LErr (TypeError_ "requestDevice")]].
Proof.
  intros Hd Hb.
  unfold connect, _connectToDevice, _requestBluetoothDevice,
    requestDevice, bind, this, try_catch.
  rewrite Hd, Hb. cbn.
  eexists. split; [reflexivity | split; [reflexivity |]].
  cbn. eexists. reflexivity.
Qed.

(** C5 fails where the device request throws: on a fresh terminal in a
    browser without Web Bluetooth, [connect()] returns no promise at all.
    The exception of the request is logged and dropped, and the call ends
    in a [TypeError] of its own, thrown at the caller. *)
Theorem connect_swallows_request_exception :
  exists w',
    connect noBluetooth newTerminal newWorld =
      (Throw (TypeError_ "then"), newTerminal, w') /\
    console w' =
      [[LStr (lit "Requesting bluetooth device...")];
       [LStr (lit "New Code with UUID 1000")];
       [LErr (TypeError_ "requestDevice")]] /\
    forall p t1 w1,
      connect noBluetooth newTerminal newWorld <> (Ok p, t1, w1).
Proof.
  eexists. split; [reflexivity | split; [reflexivity |]].
  intros p t1 w1 H. cbv in H. discriminate.
Qed.

(** ** The write chain of [send] *)

Definition disconnectedError : JSError := Error_ "Device has been disconnected".



Lemma disconnect_run (t : BluetoothTerminal) (w : World) :
  exists t' w',
    disconnect t w = (Ok tt, t', w') /\
    _characteristic t' = None /\ transport w' = transport w.
Proof.
  destruct t as [rb ml [dev|] [ch|] did rf su cu rs ss];
    destruct w as [co tr rc dl vl [|]];
    do 2 eexists; (split; [reflexivity | split; reflexivity]).
Qed.

Section Chain.

Variable env : Environment.

(** One turn of the loop of [send]. *)
Definition chained (promise : Promise unit) (chunk : jsstring) : Promise unit :=
  then_ promise (fun _ => chunkPromise env chunk).

(** The chain read from its head: the chunks still to be written once
    the promise before them is fulfilled. *)
Fixpoint remaining (chunks : list jsstring) : Promise unit := fun t w =>
  match chunks with
  | [] => (Fulfilled tt, t, w)
  | c :: cs =>
      match chunkPromise env c t w with
      | (Ok q, t1, w1) =>
          match q t1 w1 with
          | (Fulfilled _, t2, w2) => remaining cs t2 w2
          | r => r
          end
      | (Throw e, t1, w1) => (Rejected e, t1, w1)
      end
  end.

Lemma fold_chained (chunks : list jsstring) :
  forall (p : Promise unit) t w,
    fold_left chained chunks p t w =
      match p t w with
      | (Fulfilled _, t1, w1) => remaining chunks t1 w1
      | r => r
      end.
Proof.
  induction chunks as [|c cs IH]; intros p t w; simpl.
  - destruct (p t w) as [[[[] | e |] t1] w1]; reflexivity.
  - rewrite IH. unfold chained at 1. unfold then_.
    destruct (p t w) as [[[[] | e |] t1] w1]; try reflexivity.
    destruct (chunkPromise env c t1 w1) as [[[q | e] t2] w2]; reflexivity.
Qed.

(** How the promise of a write settles, the page perhaps disconnecting
    while it is pending. *)
Lemma writePromise_run (n : nat) (t : BluetoothTerminal) (w : World) :
  (writeSettles env n = Pending /\
   exists t' w',
     writePromise env n t w = (Pending, t', w') /\
     transport w' = transport w) \/
  (exists o t' w',
     writeSettles env n = o /\ o <> Pending /\
     writePromise env n t w = (o, t', w') /\
     transport w' = transport w ++ [WriteSettled n o] /\
     (if disconnectsDuring env n then _characteristic t' = None else t' = t)).
Proof.
  unfold writePromise.
  destruct (disconnectsDuring env n).
  - destruct (disconnect_run t w) as (t' & w' & Hd & Hc & Htr).
    rewrite Hd.
    destruct (writeSettles env n) as [[] | e |] eqn:Hs; [right | right | left].
    + do 3 eexists.
      split; [reflexivity | split; [discriminate | split; [reflexivity |]]].
      split; [cbn; rewrite Htr; reflexivity | exact Hc].
    + do 3 eexists.
      split; [reflexivity | split; [discriminate | split; [reflexivity |]]].
      split; [cbn; rewrite Htr; reflexivity | exact Hc].
    + split; [reflexivity |]. exists t', w'. split; [reflexivity | exact Htr].
  - cbn.
    destruct (writeSettles env n) as [[] | e |] eqn:Hs; [right | right | left].
    + do 3 eexists.
      split; [reflexivity | split; [discriminate | split; [reflexivity |]]].
      split; reflexivity.
    + do 3 eexists.
      split; [reflexivity | split; [discriminate | split; [reflexivity |]]].
      split; reflexivity.
    + split; [reflexivity |]. exists t, w. split; reflexivity.
Qed.

(** With the characteristic gone, the next chunk of the chain is not
    written and the chain is rejected: [reject] is called first, and the
    [TypeError] of the write on null comes too late to change that. *)
Lemma chunkPromise_disconnected (c : jsstring) (t : BluetoothTerminal)
    (w : World) :
  _characteristic t = None ->
  chunkPromise env c t w = (Ok (reject disconnectedError), t, w).
Proof.
  intros Hc. unfold chunkPromise, _writeToCharacteristic, bind, writeValue.
  rewrite Hc. reflexivity.
Qed.


Lemma chunkPromise_connected (c : jsstring) (t : BluetoothTerminal)
    (w : World) (ch : Characteristic) :
  _characteristic t = Some ch ->
  exists q w1,
    chunkPromise env c t w = (Ok q, t, w1) /\
    transport w1 = transport w ++ [WriteValue ch (encode c)] /\
    forall t' w', q t' w' = writePromise env (List.length (written w)) t' w'.
Proof.
  intros Hc. unfold chunkPromise, _writeToCharacteristic, bind, writeValue.
  rewrite Hc. cbn. do 2 eexists. split; [reflexivity | split; [reflexivity |]].
  intros t' w'. destruct (writePromise env _ t' w') as [[o t2] w2]. reflexivity.
Qed.

End Chain.

Lemma written_app (w w' : World) (tr : list TransportEvent) :
  transport w' = transport w ++ tr ->
  written w' = written w ++ filter isWrite tr.
Proof. intros H. unfold written. rewrite H. apply filter_app. Qed.

(** The write of a chunk on characteristic [ch]. *)
Definition chunkWrite (ch : Characteristic) (chunk : jsstring) : TransportEvent :=
  WriteValue ch (encode chunk).



Lemma chunkPromise_unfolded (env : Environment) (c : jsstring)
    (t : BluetoothTerminal) (w : World) (ch : Characteristic) :
  _characteristic t = Some ch ->
  chunkPromise env c t w =
    match _writeToCharacteristic env (Some ch) c t w with
    | (Ok q, t1, w1) =>
        (Ok (fun t w => let '(o, t2, w2) := q t w in (o, t2, w2)), t1, w1)
    | (Throw e, t1, w1) => (Ok (reject e), t1, w1)
    end.
Proof. intros Hc. unfold chunkPromise. rewrite Hc. reflexivity. Qed.

(** With a cached characteristic and chunks to write, [send] and the
    settlement of its promise are the chain over all chunks. *)
Lemma send_runs_chain (env : Environment) (data : Prim) (t : BluetoothTerminal)
    (w : World) (ch : Characteristic) (chunks : list jsstring) :
  _characteristic t = Some ch ->
  coerced data <> [] ->
  _splitByLength (coerced data ++ _sendSeparator t)
    (_maxCharacteristicValueLength t) = Ok (Some chunks) ->
  chunks <> [] /\
  settle (send env data) t w =
    (let '(o, t2, w2) := remaining env chunks t w in (Ok o, t2, w2)).
Proof.
  intros Hc Hdata Hsplit.
  assert (Hne : chunks <> []).
  { unfold _splitByLength in Hsplit.
    destruct (_maxCharacteristicValueLength t); [discriminate |].
    destruct (matchAll _ _); [discriminate |].
    injection Hsplit as <-. discriminate. }
  split; [exact Hne |].
  destruct chunks as [|c cs]; [congruence |].
  unfold settle, send. fold (coerced data).
  change (fun promise chunk => then_ promise (fun _ => chunkPromise env chunk))
    with (chained env).
  destruct (coerced data) as [|x s] eqn:E; [congruence |].
  cbn [isEmpty]. unfold bind at 1. unfold this at 1.
  unfold bind at 1. rewrite Hsplit. unfold lift.
  rewrite Hc. unfold first, rest. cbn [hd tl].
  unfold bind at 1. unfold ret at 1.
  unfold bind at 1.
  simpl remaining.
  rewrite (chunkPromise_unfolded env c t w ch Hc).
  destruct (_writeToCharacteristic env (Some ch) c t w) as [[[q | e] t1] w1] eqn:Hw.
  - unfold ret. rewrite fold_chained.
    destruct (q t1 w1) as [[[[] | e |] t2] w2]; reflexivity.
  - unfold _writeToCharacteristic, bind, writeValue in Hw. cbn in Hw. discriminate.
Qed.


(** A page that disconnects while the first write is pending. *)
Definition disconnectingEnv : Environment :=
  mkEnvironment None (fun _ => Pending) (fun _ => Pending) (fun _ => Pending)
    (fun _ => Pending) (fun _ => Fulfilled tt) (fun n => Nat.eqb n 0).


(** Unfolds the promise combinators and the accessors of the instance and
    the world, leaving the logged strings alone. *)
Ltac run_session :=
  cbv beta iota zeta delta
    [catch_ then_ _connectDeviceAndCacheCharacteristic _startNotifications
     connectGatt bind this ret resolve reject throw set_world
     set_characteristic set_device _log _characteristic _device
     gattConnected set_gattConnected addDisconnectionListener
     addValueListener console transport received disconnectionListener
     valueListeners].

(** The number 10^21 is sent as the six code units of "1e+21" and the
    separator, in one write; a disconnection while that write is pending
    comes too late to reject anything. *)
Lemma send_of_large_number_is_one_short_write :
  resultOf (settle (send disconnectingEnv (PNum (10 ^ 21)))
              (connectedTerminal someDevice 7%nat) newWorld) =
    Ok (Fulfilled tt) /\
  transport
    (worldAfter (settle (send disconnectingEnv (PNum (10 ^ 21)))
                   (connectedTerminal someDevice 7%nat) newWorld)) =
    [WriteValue 7%nat [49; 101; 43; 50; 49; 10]; WriteSettled 0 (Fulfilled tt)].
Proof. vm_compute. split; reflexivity. Qed.

(** When every step of the sequence succeeds, the promise of [connect()]
    is fulfilled with the characteristic of the last service cached and
    the notification handler attached to it. *)
Lemma connect_resolves_with_notifications (env : Environment)
    (t : BluetoothTerminal) (w : World) (d : Device) (server : Server)
    (services : list Service) (service : Service) (c : Characteristic) :
  _device t = None -> _characteristic t = None ->
  bluetooth env = Some (Fulfilled d) ->
  gattConnect env d = Fulfilled server ->
  getPrimaryServices env server = Fulfilled (services ++ [service]) ->
  getCharacteristic env service = Fulfilled c ->
  startNotifications env c = Fulfilled tt ->
  exists t' w',
    settle (connect env) t w = (Ok (Fulfilled tt), t', w') /\
    _device t' = Some d /\ _characteristic t' = Some c /\
    In c (valueListeners w') /\ transport w' = transport w.
Proof.
  intros Hd Hc Hb Hg Hs Hch Hn.
  destruct t as [rb ml dev chr did rf su cu rs ss]. simpl in Hd, Hc. subst dev chr.
  destruct w as [co tr rc dl vl gc].
  unfold settle, connect, _connectToDevice, _requestBluetoothDevice,
    requestDevice, bind, this, try_catch.
  cbn [_device]. rewrite Hb. cbn.
  assert (Hlast : lastCharacteristic env (services ++ [service]) =
                    fun t w => (Fulfilled (Some c), t, w)).
  { unfold lastCharacteristic. rewrite fold_left_app. cbn. rewrite Hch.
    reflexivity. }
  run_session. rewrite Hg. run_session.
  destruct gc; run_session; rewrite Hs; run_session; rewrite Hlast;
    run_session; rewrite Hn; run_session;
    (do 2 eexists; split; [reflexivity |]; cbn; repeat split;
     destruct (existsb (Nat.eqb c) vl) eqn:E;
     [apply existsb_exists in E as (x & Hin & Hx);
      apply Nat.eqb_eq in Hx; subst x; exact Hin
     | apply in_or_app; right; left; reflexivity]).
Qed.

(** * The rest of the class *)

(** ** Configuration: the setters and the constructor *)

Definition set_serviceUuid (v : Prim) : JSM unit := fun t w =>
  (Ok tt,
   mkTerminal (_receiveBuffer t) (_maxCharacteristicValueLength t) (_device t)
     (_characteristic t) (_deviceId t) (_rfIdNumber t) v
     (_characteristicUuid t) (_receiveSeparator t) (_sendSeparator t),
   w).

Definition set_characteristicUuid (v : Prim) : JSM unit := fun t w =>
  (Ok tt,
   mkTerminal (_receiveBuffer t) (_maxCharacteristicValueLength t) (_device t)
     (_characteristic t) (_deviceId t) (_rfIdNumber t) (_serviceUuid t)
     v (_receiveSeparator t) (_sendSeparator t),
   w).

Definition set_receiveSeparator (s : jsstring) : JSM unit := fun t w =>
  (Ok tt,
   mkTerminal (_receiveBuffer t) (_maxCharacteristicValueLength t) (_device t)
     (_characteristic t) (_deviceId t) (_rfIdNumber t) (_serviceUuid t)
     (_characteristicUuid t) s (_sendSeparator t),
   w).

Definition set_sendSeparator (s : jsstring) : JSM unit := fun t w =>
  (Ok tt,
   mkTerminal (_receiveBuffer t) (_maxCharacteristicValueLength t) (_device t)
     (_characteristic t) (_deviceId t) (_rfIdNumber t) (_serviceUuid t)
     (_characteristicUuid t) (_receiveSeparator t) s,
   w).

(** [setServiceUuid(uuid)] and [setCharacteristicUuid(uuid)] *)
Definition setServiceUuid (uuid : Prim) : JSM unit := set_serviceUuid uuid.

Definition setCharacteristicUuid (uuid : Prim) : JSM unit :=
  set_characteristicUuid uuid.

(** [setReceiveSeparator(separator)].  Among the primitive values only a
    string passes the test [typeof separator === 'string' || separator
    instanceof String]. *)
Definition setReceiveSeparator (separator : Prim) : JSM unit :=
  match separator with
  | PStr s =>
      if negb (Nat.eqb (List.length s) 1)
      then throw (Error_ "Separator length must be equal to one character")
      else set_receiveSeparator s
  | _ => throw (Error_ "Separator type is not a string")
  end.

(** [setSendSeparator(separator)] *)
Definition setSendSeparator (separator : Prim) : JSM unit :=
  match separator with
  | PStr s =>
      if negb (Nat.eqb (List.length s) 1)
      then throw (Error_ "Separator length must be equal to one character")
      else set_sendSeparator s
  | _ => throw (Error_ "Separator type is not a string")
  end.

(** A default parameter value takes the place of an argument that is
    undefined. *)
Definition orDefault (argument default : Prim) : Prim :=
  match argument with
  | PUndefined => default
  | _ => argument
  end.

(** The instance as the constructor has it before it calls the setters:
    the six fields it assigns directly, the configuration still unset. *)
Definition unconfigured : BluetoothTerminal :=
  mkTerminal [] 20%nat None None PNull PNull PUndefined PUndefined [] [].

(** [constructor(serviceUuid = 0x0001, characteristicUuid = 0x0003,
    receiveSeparator = '\n', sendSeparator = '\n')], run on the instance
    being built. *)
Definition constructor (serviceUuid characteristicUuid receiveSeparator
    sendSeparator : Prim) : JSM unit :=
  setServiceUuid (orDefault serviceUuid (PNum 0x0001)) ;;
  setCharacteristicUuid (orDefault characteristicUuid (PNum 0x0003)) ;;
  setReceiveSeparator (orDefault receiveSeparator (PStr lf)) ;;
  setSendSeparator (orDefault sendSeparator (PStr lf)).

(** [new BluetoothTerminal(...)]: the instance, unless the constructor
    throws. *)
Definition construct (serviceUuid characteristicUuid receiveSeparator
    sendSeparator : Prim) : Result BluetoothTerminal :=
  match constructor serviceUuid characteristicUuid receiveSeparator
          sendSeparator unconfigured newWorld with
  | (Ok _, t, _) => Ok t
  | (Throw e, _, _) => Throw e
  end.

(** [getDeviceName()] *)
Definition getDeviceName : JSM jsstring :=
  t <- this ;;
  match _device t with
  | None => ret []
  | Some device => ret (name device)
  end.

(** [receive(data)]: the override point does nothing by itself. *)
Definition receive (data : jsstring) : JSM unit := ret tt.

(** ** Host-initiated frames *)

(** The array that [sendNew()] fills in. *)
Definition frameNew : list Z :=
  let newData := Uint8Array 11 in
  let deviceId := 2000 in
  let newData := store newData 0 21 in
  let newData := store newData 1 (sar (bitand deviceId 0xFF000000) 24) in
  let newData := store newData 2 (sar (bitand deviceId 0x00FF0000) 16) in
  let newData := store newData 3 (sar (bitand deviceId 0x0000FF00) 8) in
  let newData := store newData 4 (bitand deviceId 0xFF0000FF) in
  let newData := store newData 5 0 in
  let newData := store newData 6 0 in
  let newData := store newData 7 0 in
  let newData := store newData 8 0 in
  let newData := store newData 9 253 in
  let newData := store newData 10 10 in
  newData.

(** [sendNew()] *)
Definition sendNew : JSM unit :=
  try_catch
    (let newData := frameNew in
     _log [LStr (lit "first sending new 1")] ;;
     t <- this ;;
     writeValue (_characteristic t) newData ;;
     _log [LStr (lit "first sent new")])
    (fun err => _log [LErr err]).

(** ** Reconnection and the end of notifications *)

(** [_handleDisconnection(event)], with [device] the target of the event.
    The handler starts a chain and returns nothing; what is returned here
    is that chain, for the event loop to run. *)
Definition _handleDisconnection (env : Environment) (device : Device) :
    JSM (Promise unit) :=
  _log [LStr (quote ++ name device ++ quote ++
              lit " bluetooth device disconnected, trying to reconnect...")] ;;
  p <- _connectDeviceAndCacheCharacteristic env device ;;
  ret (catch_ (then_ p (_startNotifications env))
         (fun error => _log [LErr error] ;; ret (resolve tt))).

(** [_stopNotifications(characteristic)], with [stops] how the promise
    of [characteristic.stopNotifications()] settles. *)
Definition _stopNotifications (stops : Characteristic -> Outcome unit)
    (characteristic : option Characteristic) : JSM (Promise unit) :=
  _log [LStr (lit "Stopping notifications...")] ;;
  match characteristic with
  | None => throw (TypeError_ "stopNotifications")
  | Some c =>
      ret (then_ (fun t w => (stops c, t, w))
             (fun _ =>
                _log [LStr (lit "Notifications stopped")] ;;
                set_world (removeValueListener c) ;;
                ret (resolve tt)))
  end.

(** ** Configuration properties *)

Definition singleCharacter (separator : Prim) : Prop :=
  exists c, separator = PStr [c].

Lemma singleCharacter_dec (separator : Prim) :
  {c | separator = PStr [c]} + {~ singleCharacter separator}.
Proof.
  destruct separator as [| | b | n | | [|c [|c' s]]];
    try (right; intros (c0 & H); discriminate).
  left. exists c. reflexivity.
Qed.

(** X1: a separator setter accepts exactly the strings of one character.
    It stores such a string in its own field and leaves the rest of the
    instance alone; any other argument makes it throw an [Error] with the
    instance and the world as they were. *)
Theorem separator_setters_accept_one_character (separator : Prim)
    (t : BluetoothTerminal) (w : World) :
  (forall c, separator = PStr [c] ->
     setReceiveSeparator separator t w =
       (Ok tt,
        mkTerminal (_receiveBuffer t) (_maxCharacteristicValueLength t)
          (_device t) (_characteristic t) (_deviceId t) (_rfIdNumber t)
          (_serviceUuid t) (_characteristicUuid t) [c] (_sendSeparator t), w) /\
     setSendSeparator separator t w =
       (Ok tt,
        mkTerminal (_receiveBuffer t) (_maxCharacteristicValueLength t)
          (_device t) (_characteristic t) (_deviceId t) (_rfIdNumber t)
          (_serviceUuid t) (_characteristicUuid t) (_receiveSeparator t) [c], w)) /\
  (~ singleCharacter separator ->
     exists message,
       setReceiveSeparator separator t w = (Throw (Error_ message), t, w) /\
       setSendSeparator separator t w = (Throw (Error_ message), t, w)).
Proof.
  split.
  - intros c ->. split; reflexivity.
  - intros Hn.
    destruct separator as [| | b | n | | [|c [|c' s]]];
      try (eexists; split; reflexivity).
    exfalso. apply Hn. exists c. reflexivity.
Qed.

Lemma separator_setters_accept_one_character_witness :
  (exists t', setSendSeparator (PStr [59]) newTerminal newWorld =
                (Ok tt, t', newWorld) /\ _sendSeparator t' = [59]) /\
  (exists message,
     setReceiveSeparator (PStr [13; 10]) newTerminal newWorld =
       (Throw (Error_ message), newTerminal, newWorld)).
Proof.
  destruct (separator_setters_accept_one_character (PStr [59]) newTerminal
              newWorld) as [Hok _].
  destruct (separator_setters_accept_one_character (PStr [13; 10]) newTerminal
              newWorld) as [_ Hbad].
  split.
  - destruct (Hok 59 eq_refl) as [_ Hs]. eexists. split; [exact Hs | reflexivity].
  - destruct Hbad as (message & Hr & _).
    + intros (c & H). discriminate.
    + exists message. exact Hr.
Defined.

(** X2: [new BluetoothTerminal(...)] succeeds exactly when both
    separators, after the defaults have replaced undefined arguments, are
    strings of one character.  The instance then holds them and the two
    identifiers, an empty receive buffer, the maximal chunk length 20, and
    neither device nor characteristic nor device state; without arguments
    it is the default terminal. *)
Theorem constructor_validates_separators (serviceUuid characteristicUuid
    receiveSeparator sendSeparator : Prim) (t : BluetoothTerminal) :
  (construct serviceUuid characteristicUuid receiveSeparator sendSeparator = Ok t
   <->
   exists r s,
     orDefault receiveSeparator (PStr lf) = PStr [r] /\
     orDefault sendSeparator (PStr lf) = PStr [s] /\
     t = mkTerminal [] 20%nat None None PNull PNull
           (orDefault serviceUuid (PNum 1)) (orDefault characteristicUuid (PNum 3))
           [r] [s]) /\
  construct PUndefined PUndefined PUndefined PUndefined = Ok newTerminal.
Proof.
  split; [| reflexivity].
  unfold construct, constructor, bind, setServiceUuid, setCharacteristicUuid,
    set_serviceUuid, set_characteristicUuid.
  cbn [unconfigured _receiveBuffer _maxCharacteristicValueLength _device
       _characteristic _deviceId _rfIdNumber _serviceUuid _characteristicUuid
       _receiveSeparator _sendSeparator].
  destruct (singleCharacter_dec (orDefault receiveSeparator (PStr lf)))
    as [[r Hr] | Hr].
  - rewrite Hr. cbn.
    destruct (singleCharacter_dec (orDefault sendSeparator (PStr lf)))
      as [[s Hs] | Hs].
    + rewrite Hs. cbn. split.
      * intros H. injection H as <-. exists r, s. auto.
      * intros (r' & s' & Hr' & Hs' & ->). congruence.
    + split.
      * intros H. exfalso.
        destruct (orDefault sendSeparator (PStr lf)) as [| | b | n | | [|c [|c' l]]];
          try discriminate.
        apply Hs. exists c. reflexivity.
      * intros (r' & s' & _ & Hs' & _). exfalso. apply Hs. exists s'. exact Hs'.
  - split.
    + intros H. exfalso.
      destruct (orDefault receiveSeparator (PStr lf)) as [| | b | n | | [|c [|c' l]]];
        try discriminate.
      apply Hr. exists c. reflexivity.
    + intros (r' & s' & Hr' & _). exfalso. apply Hr. exists r'. exact Hr'.
Qed.

(** ** More on the frame codec *)

Lemma bigEndian_bytes_mod (p : Z) :
  bigEndian ((p / 2 ^ 24) mod 256) ((p / 2 ^ 16) mod 256)
    ((p / 2 ^ 8) mod 256) (p mod 256) = p mod 2 ^ 32.
Proof.
  unfold bigEndian.
  change (2 ^ 24) with 16777216. change (2 ^ 16) with 65536.
  change (2 ^ 8) with 256. change (2 ^ 32) with 4294967296.
  Z.to_euclidean_division_equations. lia.
Qed.

(** X3: whatever the two numbers given to [_sendToDevice], the array it
    builds has 11 bytes: the command reduced modulo 256, four bytes that
    read big-endian give the data reduced modulo 2^32, four zero bytes,
    the marker 254 and the terminator 10. *)
Theorem encoder_layout (command data : Z) :
  exists b1 b2 b3 b4,
    frame command data = [command mod 256; b1; b2; b3; b4; 0; 0; 0; 0; 254; 10] /\
    (0 <= b1 < 256 /\ 0 <= b2 < 256 /\ 0 <= b3 < 256 /\ 0 <= b4 < 256) /\
    bigEndian b1 b2 b3 b4 = data mod 2 ^ 32 /\
    List.length (frame command data) = 11%nat.
Proof.
  exists ((data / 2 ^ 24) mod 256), ((data / 2 ^ 16) mod 256),
    ((data / 2 ^ 8) mod 256), (data mod 256).
  rewrite frame_bytes. split; [reflexivity |]. split; [| split].
  - repeat split; apply Z.mod_pos_bound; lia.
  - apply bigEndian_bytes_mod.
  - reflexivity.
Qed.

(** X4: a frame built by the encoder and read back by the handler gives
    the command byte again and, as payload, the number reduced to the
    signed 32-bit range: the payload itself below 2^31, and the payload
    minus 2^32 from there on.  Reading the frame writes nothing. *)
Theorem encoder_decoder_round_trip (c p : Z) (t : BluetoothTerminal)
    (w : World) :
  0 <= c < 256 -> 0 <= p < 2 ^ 32 ->
  exists w',
    decodeFrame (frame c p) t w =
      (Ok (c, PNum (if p <? 2 ^ 31 then p else p - 2 ^ 32), 254), t, w') /\
    transport w' = transport w.
Proof.
  intros Hc Hp.
  destruct (decode_encode c p t w Hc Hp) as (w' & Hrun).
  destruct (decodeFrame_long (frame c p) t w) as (c' & tot & m & w0 & Hd & _ & _ & Htr & _).
  { rewrite frame_bytes. simpl. lia. }
  exists w'. split.
  - rewrite Hrun. unfold ToInt32. rewrite Z.mod_small by exact Hp.
    destruct (Z.leb_spec (2 ^ 31) p), (Z.ltb_spec p (2 ^ 31)); try lia; reflexivity.
  - rewrite Hrun in Hd. injection Hd as _ _ _ <-. exact Htr.
Qed.

Lemma encoder_decoder_round_trip_witness :
  exists w',
    decodeFrame (frame 42 2000) newTerminal newWorld =
      (Ok (42, PNum 2000, 254), newTerminal, w') /\
    transport w' = transport newWorld.
Proof.
  destruct (encoder_decoder_round_trip 42 2000 newTerminal newWorld)
    as (w' & Hrun & Htr); [lia | lia |].
  exists w'. split; [exact Hrun | exact Htr].
Defined.

Lemma marker_254_dropped (command : Z) (data : Prim) (t : BluetoothTerminal)
    (w : World) :
  _connectionDataReceive command data 254 t w = (Ok tt, t, w).
Proof. reflexivity. Qed.

(** X5: the terminal does not answer its own frames.  Whatever
    [_sendToDevice] builds carries the marker 254, so the notification
    handler fed those bytes changes nothing of the instance, writes
    nothing and does not throw. *)
Theorem own_frames_are_ignored (command data : Z) (t : BluetoothTerminal)
    (w : World) :
  exists w',
    _handleCharacteristicValueChanged (frame command data) t w = (Ok tt, t, w') /\
    transport w' = transport w /\ received w' = received w.
Proof.
  destruct (decodeFrame_long (frame command data) t w)
    as (c & total & m & w0 & Hd & _ & H9 & Htr & Hrc).
  { rewrite frame_bytes. simpl. lia. }
  rewrite frame_bytes in H9. injection H9 as <-.
  unfold _handleCharacteristicValueChanged, bind. rewrite Hd.
  rewrite marker_254_dropped.
  exists w0. split; [reflexivity | split; assumption].
Qed.

(** ** More on the dispatcher *)

(** The long device id the handler builds from the eight payload bytes. *)
Definition longDeviceId (t1 t2 t3 t4 t5 t6 t7 t8 : Z) : jsstring :=
  toString16 t1 ++ toString16 t2 ++ toString16 t3 ++ toString16 t4 ++
  toString16 t5 ++ toString16 t6 ++ toString16 t7 ++ toString16 t8.

Lemma toString16_length (b : Z) :
  (1 <= List.length (toString16 b) <= 2)%nat.
Proof. unfold toString16. destruct (b <? 16); simpl; lia. Qed.

(** X6: a device-id announcement (command 21, marker 253) stores as
    [_deviceId] the unpadded hexadecimal digits of the eight payload bytes
    one after another, a string of 8 to 16 characters, and is answered on
    the cached characteristic by one frame with command 21 and payload 1;
    [_rfIdNumber] is left alone.  The digits are not padded, so the string
    does not determine the bytes: the payloads 01 23 00.. and 12 03 00..
    give the same id. *)
Theorem device_id_announcement :
  (forall t1 t2 t3 t4 t5 t6 t7 t8 terminator t w ch,
     _characteristic t = Some ch ->
     exists t' w',
       _handleCharacteristicValueChanged
         [21; t1; t2; t3; t4; t5; t6; t7; t8; 253; terminator] t w =
         (Ok tt, t', w') /\
       _deviceId t' = PStr (longDeviceId t1 t2 t3 t4 t5 t6 t7 t8) /\
       _rfIdNumber t' = _rfIdNumber t /\
       transport w' =
         transport w ++ [WriteValue ch [21; 0; 0; 0; 1; 0; 0; 0; 0; 254; 10]]) /\
  (forall t1 t2 t3 t4 t5 t6 t7 t8,
     (8 <= List.length (longDeviceId t1 t2 t3 t4 t5 t6 t7 t8) <= 16)%nat) /\
  longDeviceId 1 35 0 0 0 0 0 0 = longDeviceId 18 3 0 0 0 0 0 0.
Proof.
  split; [| split; [| reflexivity]].
  - intros t1 t2 t3 t4 t5 t6 t7 t8 terminator t w ch Hc.
    destruct t as [rb ml dev c did rf su cu rs ss]. simpl in Hc. subst c.
    unfold _handleCharacteristicValueChanged, decodeFrame, longDeviceId.
    cbn -[toString16 lit frame].
    do 2 eexists. split; [reflexivity | cbn -[toString16]; auto].
  - intros. unfold longDeviceId. rewrite !length_app.
    pose proof (toString16_length t1). pose proof (toString16_length t2).
    pose proof (toString16_length t3). pose proof (toString16_length t4).
    pose proof (toString16_length t5). pose proof (toString16_length t6).
    pose proof (toString16_length t7). pose proof (toString16_length t8).
    lia.
Qed.

Lemma device_id_announcement_witness :
  exists t' w',
    _handleCharacteristicValueChanged [21; 1; 35; 69; 103; 137; 171; 205; 239; 253; 10]
      (connectedTerminal someDevice 7%nat) newWorld = (Ok tt, t', w') /\
    _deviceId t' = PStr (lit "123456789abcdef").
Proof.
  destruct (proj1 device_id_announcement 1 35 69 103 137 171 205 239 10
              (connectedTerminal someDevice 7%nat) newWorld 7%nat eq_refl)
    as (t' & w' & Hrun & Hid & _).
  exists t', w'. split; [exact Hrun | exact Hid].
Defined.

(** X7: for every command other than 21, 31, 41, 42, 43 and 44, whatever
    the marker and the payload, the dispatcher leaves the instance as it
    was, writes nothing and does not throw: the pour notifications 32 to
    36 and 51 are only logged, any other code is not even logged. *)
Theorem other_commands_only_logged (command : Z) (data : Prim)
    (handsakeCommand : Z) (t : BluetoothTerminal) (w : World) :
  ~ In command [21; 31; 41; 42; 43; 44] ->
  exists w',
    _connectionDataReceive command data handsakeCommand t w = (Ok tt, t, w') /\
    transport w' = transport w /\ received w' = received w /\
    (~ In command [32; 33; 34; 35; 36; 51] -> w' = w).
Proof.
  intros Hn. simpl in Hn.
  unfold _connectionDataReceive.
  destruct (negb (handsakeCommand =? 253)).
  { exists w. repeat split. }
  destruct (Z.eqb_spec command 21); [lia |].
  destruct (Z.eqb_spec command 31); [lia |].
  destruct (Z.eqb_spec command 41); [lia |].
  destruct (Z.eqb_spec command 42); [lia |].
  destruct (Z.eqb_spec command 43); [lia |].
  destruct (Z.eqb_spec command 44); [lia |].
  destruct (Z.eqb_spec command 32);
    [eexists; repeat split; intros H; simpl in H; lia |].
  destruct (Z.eqb_spec command 33);
    [eexists; repeat split; intros H; simpl in H; lia |].
  destruct (Z.eqb_spec command 34);
    [eexists; repeat split; intros H; simpl in H; lia |].
  destruct (Z.eqb_spec command 35);
    [eexists; repeat split; intros H; simpl in H; lia |].
  destruct (Z.eqb_spec command 36);
    [eexists; repeat split; intros H; simpl in H; lia |].
  destruct (Z.eqb_spec command 51);
    [eexists; repeat split; intros H; simpl in H; lia |].
  exists w. repeat split.
Qed.

Lemma other_commands_only_logged_witness :
  exists w',
    _connectionDataReceive 51 (PNum 330) 253 (connectedTerminal someDevice 7%nat)
      newWorld = (Ok tt, connectedTerminal someDevice 7%nat, w') /\
    transport w' = [] /\
    console w' = [[LStr (lit "Finish Pouring330")]].
Proof.
  destruct (other_commands_only_logged 51 (PNum 330) 253
              (connectedTerminal someDevice 7%nat) newWorld)
    as (w' & Hrun & Htr & _).
  - simpl. intros H. repeat (destruct H as [H | H]; [discriminate |]). exact H.
  - exists w'. split; [exact Hrun |]. split; [exact Htr |].
    cbv in Hrun. injection Hrun as <-. reflexivity.
Defined.

(** The last call of [console.log]. *)
Definition lastLogged (w : World) : list LogArg := last (console w) [].

(** X8: with no characteristic cached the dispatcher still does not
    throw, and writes nothing, whatever the frame: the [TypeError] of the
    write on null is caught inside [_sendToDevice] and logged.  The state
    is updated all the same: a frame 21 still sets [_deviceId]. *)
Theorem dispatcher_survives_missing_characteristic (command : Z) (data : Prim)
    (handsakeCommand : Z) (t : BluetoothTerminal) (w : World) :
  _characteristic t = None ->
  exists t' w',
    _connectionDataReceive command data handsakeCommand t w = (Ok tt, t', w') /\
    transport w' = transport w /\
    _characteristic t' = None /\
    (handsakeCommand = 253 -> In command [41; 42; 43; 44] ->
     t' = t /\ lastLogged w' = [LErr (TypeError_ "writeValue")]) /\
    (handsakeCommand = 253 -> command = 21 -> _deviceId t' = data).
Proof.
  intros Hc.
  destruct t as [rb ml dev c did rf su cu rs ss]. simpl in Hc. subst c.
  unfold _connectionDataReceive.
  assert (Hlast : forall (l : list (list LogArg)) x, last (l ++ [x]) [] = x)
    by (intros; apply last_last).
  destruct (Z.eqb_spec handsakeCommand 253) as [-> | Hm]; cbn [negb];
    [| do 2 eexists; split; [reflexivity |];
       split; [reflexivity | split; [reflexivity | split; intros; congruence]]].
  destruct (Z.eqb_spec command 21) as [-> | H21];
    [| destruct (Z.eqb_spec command 31) as [-> | H31];
       [| destruct (Z.eqb_spec command 41) as [-> | H41];
          [| destruct (Z.eqb_spec command 42) as [-> | H42];
             [| destruct (Z.eqb_spec command 43) as [-> | H43];
                [| destruct (Z.eqb_spec command 44) as [-> | H44]]]]]];
    repeat match goal with
           | |- context [if ?c then _ else _] => destruct c
           end;
    (do 2 eexists; split; [reflexivity |];
     split; [reflexivity | split; [reflexivity | split]];
     [ intros _ Hin;
       first [ exfalso; simpl in Hin; lia
             | split; [reflexivity | unfold lastLogged; cbn; apply Hlast] ]
     | intros _ Hcmd; first [ reflexivity | exfalso; lia ] ]).
Qed.

Lemma dispatcher_survives_missing_characteristic_witness :
  exists w',
    _connectionDataReceive 42 (PNum 0) 253 newTerminal newWorld =
      (Ok tt, newTerminal, w') /\
    transport w' = [] /\
    lastLogged w' = [LErr (TypeError_ "writeValue")].
Proof.
  destruct (dispatcher_survives_missing_characteristic 42 (PNum 0) 253
              newTerminal newWorld eq_refl)
    as (t' & w' & Hrun & Htr & _ & Hq & _).
  destruct (Hq eq_refl) as [Ht Hlog]; [simpl; auto |].
  subst t'. exists w'. split; [exact Hrun | split; [exact Htr | exact Hlog]].
Defined.

(** X9: the three host-initiated calls.  With a characteristic cached,
    [_startPour()] writes the one frame 31 with payload 1, [_tapClosed()]
    the one frame 45 with payload 1, both with marker 254, and [sendNew()]
    the one frame 21 with payload 2000 and marker 253; the instance is
    left as it was.  With none cached each of them writes nothing and
    returns normally, the [TypeError] being logged. *)
Theorem host_initiated_frames (t : BluetoothTerminal) (w : World) :
  (forall ch, _characteristic t = Some ch ->
     (exists w', _startPour t w = (Ok tt, t, w') /\
        transport w' =
          transport w ++ [WriteValue ch [31; 0; 0; 0; 1; 0; 0; 0; 0; 254; 10]]) /\
     (exists w', _tapClosed t w = (Ok tt, t, w') /\
        transport w' =
          transport w ++ [WriteValue ch [45; 0; 0; 0; 1; 0; 0; 0; 0; 254; 10]]) /\
     (exists w', sendNew t w = (Ok tt, t, w') /\
        transport w' =
          transport w ++ [WriteValue ch [21; 0; 0; 7; 208; 0; 0; 0; 0; 253; 10]])) /\
  (_characteristic t = None ->
     (exists w', _startPour t w = (Ok tt, t, w') /\ transport w' = transport w /\
        lastLogged w' = [LErr (TypeError_ "writeValue")]) /\
     (exists w', _tapClosed t w = (Ok tt, t, w') /\ transport w' = transport w /\
        lastLogged w' = [LErr (TypeError_ "writeValue")]) /\
     (exists w', sendNew t w = (Ok tt, t, w') /\ transport w' = transport w /\
        lastLogged w' = [LErr (TypeError_ "writeValue")])).
Proof.
  destruct t as [rb ml dev c did rf su cu rs ss].
  split.
  - intros ch Hc. simpl in Hc. subst c.
    repeat split; eexists; split; reflexivity.
  - intros Hc. simpl in Hc. subst c.
    repeat split; eexists; (split; [reflexivity | split; [reflexivity |]]);
      unfold lastLogged; cbn; apply last_last.
Qed.

Lemma host_initiated_frames_witness :
  exists w',
    _startPour (connectedTerminal someDevice 7%nat) newWorld =
      (Ok tt, connectedTerminal someDevice 7%nat, w') /\
    transport w' = [WriteValue 7%nat [31; 0; 0; 0; 1; 0; 0; 0; 0; 254; 10]].
Proof.
  destruct (proj1 (host_initiated_frames (connectedTerminal someDevice 7%nat)
                     newWorld) 7%nat eq_refl) as [(w' & Hrun & Htr) _].
  exists w'. split; [exact Hrun | exact Htr].
Defined.

(** ** More on the chunk splitter *)

(** What the quantifier takes and what it leaves make up the string; the
    part taken is of the group and at most [n] long. *)
Lemma upTo_parts (n : nat) (s : jsstring) :
  fst (upTo n s) ++ snd (upTo n s) = s /\
  forallb group (fst (upTo n s)) = true /\
  (List.length (fst (upTo n s)) <= n)%nat.
Proof.
  revert s. induction n as [|n IH]; intros [|c s]; simpl; try (repeat split; lia).
  destruct (group c) eqn:Hc; simpl; [| repeat split; lia].
  destruct (IH s) as (Happ & Hall & Hlen).
  destruct (upTo n s) as [m r]. simpl in *.
  rewrite Happ, Hc, Hall. repeat split. lia.
Qed.

Lemma filter_all {A} (f : A -> bool) (l : list A) :
  forallb f l = true -> filter f l = l.
Proof.
  induction l as [|x l IH]; simpl; [reflexivity |].
  intros H. apply andb_prop in H as [Hx Hl]. rewrite Hx, (IH Hl). reflexivity.
Qed.

(** The matches on any string: they concatenate to what is left of the
    string once the code units outside the group are taken out. *)
Lemma matchAll_filter (n : nat) (s : jsstring) :
  (0 < n)%nat ->
  List.concat (matchAll n s) = filter group s /\
  Forall (fun c => (1 <= List.length c <= n)%nat /\ forallb group c = true)
    (matchAll n s).
Proof.
  intros Hn. remember (List.length s) as k eqn:Hk.
  revert s Hk. induction k as [k IH] using (well_founded_induction lt_wf).
  intros [|c s] Hk; simp matchAll; [split; [reflexivity | constructor] |].
  destruct (group c) eqn:Hc.
  - destruct (upTo_parts (Nat.pred n) s) as (Happ & Hall & Hlen).
    pose proof (upTo_rest_length (Nat.pred n) s) as Hrest.
    destruct (IH (List.length (snd (upTo (Nat.pred n) s))))
      with (s := snd (upTo (Nat.pred n) s)) as [Hcat Hforall];
      [subst k; simpl; lia | reflexivity |].
    split.
    + cbn [List.concat]. rewrite Hcat. cbn [filter app]. rewrite Hc.
      rewrite <- Happ at 3. rewrite filter_app, (filter_all _ _ Hall).
      reflexivity.
    + constructor; [| exact Hforall]. cbn [List.length forallb].
      rewrite Hc, Hall. split; [lia | reflexivity].
  - destruct (IH (List.length s)) with (s := s) as [Hcat Hforall];
      [subst k; simpl; lia | reflexivity |].
    cbn [filter]. rewrite Hc. split; assumption.
Qed.



Lemma matchAll_window (n : nat) (s : jsstring) :
  (0 < n)%nat -> s <> [] -> forallb group s = true ->
  matchAll n s = firstn n s :: matchAll n (skipn n s).
Proof.
  intros Hn Hne Hs. destruct s as [|c s]; [congruence |].
  destruct n as [|n]; [lia |].
  simpl in Hs. apply andb_prop in Hs as [Hc Hs].
  simp matchAll. rewrite Hc, (upTo_cut _ _ Hs). reflexivity.
Qed.




(** ** More on [send] *)

Lemma split_nothing_left (s : jsstring) (L : nat) :
  (0 < L)%nat -> Forall (fun c => c = 0x2028 \/ c = 0x2029) s ->
  _splitByLength s L = Ok None.
Proof.
  intros HL Hs.
  assert (Hnone : filter group s = []).
  { induction Hs as [|c s Hc _ IH]; [reflexivity |].
    destruct Hc as [-> | ->]; exact IH. }
  destruct (matchAll_filter L s HL) as [Hcat Hall].
  unfold _splitByLength. destruct L; [lia |].
  destruct (matchAll (S L) s) as [|c0 cs]; [reflexivity |].
  exfalso. inversion Hall as [|x l [Hlen _] _]; subst.
  rewrite Hnone in Hcat. destruct c0; [simpl in Hlen; lia | discriminate].
Qed.

Lemma split_short (s : jsstring) (L : nat) :
  s <> [] -> separatorFree s -> (List.length s <= L)%nat ->
  _splitByLength s L = Ok (Some [s]).
Proof.
  intros Hne Hfree Hlen.
  assert (HL : (0 < L)%nat) by (destruct s; [congruence | simpl in Hlen; lia]).
  unfold _splitByLength. destruct L as [|L']; [lia |].
  rewrite (matchAll_window (S L') s HL Hne (separatorFree_group s Hfree)).
  rewrite firstn_all2 by exact Hlen. rewrite skipn_all2 by exact Hlen.
  simp matchAll. reflexivity.
Qed.

(** X12: [send] with data that is not empty but no characteristic cached
    returns a promise rejected with the error 'There is no connected
    device'; the instance and the world are untouched, so nothing is
    written and nothing logged. *)
Theorem send_without_characteristic_rejects (env : Environment) (data : Prim)
    (t : BluetoothTerminal) (w : World) :
  coerced data <> [] ->
  (0 < _maxCharacteristicValueLength t)%nat ->
  _characteristic t = None ->
  settle (send env data) t w =
    (Ok (Rejected (Error_ "There is no connected device")), t, w).
Proof.
  intros Hdata HL Hc.
  unfold settle, send. fold (coerced data).
  destruct (coerced data) as [|c s] eqn:E; [congruence |].
  cbn [isEmpty]. unfold bind, this, lift.
  unfold _splitByLength.
  destruct (_maxCharacteristicValueLength t) as [|L]; [lia |].
  destruct (matchAll (S L) ((c :: s) ++ _sendSeparator t));
    rewrite Hc; reflexivity.
Qed.

Lemma send_without_characteristic_rejects_witness :
  settle (send noBluetooth (PStr (lit "hello"))) newTerminal newWorld =
    (Ok (Rejected (Error_ "There is no connected device")), newTerminal, newWorld).
Proof.
  apply send_without_characteristic_rejects.
  - discriminate.
  - simpl. lia.
  - reflexivity.
Defined.

(** X13: [send] writes a message that with its separator fits in one
    chunk (and holds neither U+2028 nor U+2029) in exactly one
    [writeValue] call, with the UTF-8 bytes of the message followed by the
    separator; the promise it returns settles the way the promise of that
    write does. *)
Theorem send_short_message_is_one_write (env : Environment) (data : Prim)
    (t : BluetoothTerminal) (w : World) (ch : Characteristic) :
  _characteristic t = Some ch ->
  coerced data <> [] ->
  separatorFree (coerced data ++ _sendSeparator t) ->
  (List.length (coerced data ++ _sendSeparator t) <=
     _maxCharacteristicValueLength t)%nat ->
  exists t2 w2,
    settle (send env data) t w =
      (Ok (writeSettles env (List.length (written w))), t2, w2) /\
    written w2 =
      written w ++ [WriteValue ch (encode (coerced data ++ _sendSeparator t))].
Proof.
  intros Hc Hdata Hfree Hlen.
  set (message := coerced data ++ _sendSeparator t) in *.
  assert (Hne : message <> []).
  { unfold message. destruct (coerced data); [congruence | discriminate]. }
  pose proof (split_short message _ Hne Hfree Hlen) as Hsplit.
  destruct (send_runs_chain env data t w ch [message] Hc Hdata Hsplit) as [_ Hsend].
  rewrite Hsend. simpl remaining.
  destruct (chunkPromise_connected env message t w ch Hc) as (q & w1 & Hcp & Htr1 & Hq).
  rewrite Hcp, Hq.
  destruct (writePromise_run env (List.length (written w)) t w1)
    as [(Hs & tp & wp & Hp & Htrp) | (o & t' & w' & Hs & Hne' & Hp & Htr' & _)];
    rewrite Hp.
  - rewrite Hs. exists tp, wp. split; [reflexivity |].
    unfold written. rewrite Htrp. fold (written w1).
    rewrite (written_app w w1 _ Htr1). reflexivity.
  - rewrite Hs. exists t', w'.
    assert (Hw : written w' = written w ++ [WriteValue ch (encode message)]).
    { rewrite (written_app w1 w' _ Htr'), (written_app w w1 _ Htr1).
      simpl. rewrite app_nil_r. reflexivity. }
    destruct o as [[] | e |]; (split; [reflexivity | exact Hw]).
Qed.

Lemma send_short_message_is_one_write_witness :
  exists t2 w2,
    settle (send disconnectingEnv (PStr (lit "AB")))
      (connectedTerminal someDevice 7%nat) newWorld =
      (Ok (Fulfilled tt), t2, w2) /\
    written w2 = [WriteValue 7%nat [65; 66; 10]].
Proof.
  destruct (send_short_message_is_one_write disconnectingEnv (PStr (lit "AB"))
              (connectedTerminal someDevice 7%nat) newWorld 7%nat)
    as (t2 & w2 & Hrun & Hw).
  - reflexivity.
  - discriminate.
  - repeat constructor; discriminate.
  - simpl. lia.
  - exists t2, w2. split; [exact Hrun | exact Hw].
Defined.

(** X14: [send] throws, instead of returning a rejected promise, when the
    data and the separator consist of U+2028 and U+2029 only and a
    characteristic is cached: the splitter returns null and [chunks[0]]
    is read from it.  Nothing is written. *)
Theorem send_throws_on_line_separators_only (env : Environment) (data : Prim)
    (t : BluetoothTerminal) (w : World) (ch : Characteristic) :
  _characteristic t = Some ch ->
  coerced data <> [] ->
  (0 < _maxCharacteristicValueLength t)%nat ->
  Forall (fun c => c = 0x2028 \/ c = 0x2029) (coerced data ++ _sendSeparator t) ->
  send env data t w = (Throw (TypeError_ "0"), t, w).
Proof.
  intros Hc Hdata HL Hall.
  pose proof (split_nothing_left _ _ HL Hall) as Hsplit.
  unfold send. fold (coerced data).
  destruct (coerced data) as [|c s] eqn:E; [congruence |].
  cbn [isEmpty]. unfold bind, this, lift. rewrite Hsplit, Hc. reflexivity.
Qed.

Lemma send_throws_on_line_separators_only_witness :
  send noBluetooth (PStr [0x2028])
    (mkTerminal [] 20%nat (Some someDevice) (Some 7%nat) PNull PNull (PNum 1)
       (PNum 3) lf [0x2029]) newWorld =
    (Throw (TypeError_ "0"),
     mkTerminal [] 20%nat (Some someDevice) (Some 7%nat) PNull PNull (PNum 1)
       (PNum 3) lf [0x2029], newWorld).
Proof.
  apply (send_throws_on_line_separators_only noBluetooth (PStr [0x2028]) _ _ 7%nat).
  - reflexivity.
  - discriminate.
  - simpl. lia.
  - constructor; [left; reflexivity |].
    constructor; [right; reflexivity | constructor].
Defined.

(** When every write is fulfilled and the page does not disconnect, the
    chain writes every chunk and is fulfilled. *)
Lemma remaining_all_fulfilled (env : Environment) (ch : Characteristic)
    (chunks : list jsstring) :
  forall t w,
    _characteristic t = Some ch ->
    (forall i, (i < List.length chunks)%nat ->
       writeSettles env (List.length (written w) + i) = Fulfilled tt /\
       disconnectsDuring env (List.length (written w) + i) = false) ->
    exists w2,
      remaining env chunks t w = (Fulfilled tt, t, w2) /\
      written w2 = written w ++ map (chunkWrite ch) chunks /\
      received w2 = received w.
Proof.
  induction chunks as [|c cs IH]; intros t w Hc Hall.
  - exists w. simpl. rewrite app_nil_r. auto.
  - simpl remaining.
    destruct (chunkPromise_connected env c t w ch Hc) as (q & w1 & Hcp & Htr1 & Hq).
    rewrite Hcp, Hq.
    set (n := List.length (written w)) in *.
    destruct (Hall 0%nat) as [Hs0 Hd0]; [simpl; lia |].
    rewrite Nat.add_0_r in Hs0, Hd0.
    assert (Hrun : exists w',
              writePromise env n t w1 = (Fulfilled tt, t, w') /\
              transport w' = transport w1 ++ [WriteSettled n (Fulfilled tt)] /\
              received w' = received w1).
    { unfold writePromise. rewrite Hs0, Hd0. cbn.
      eexists. split; [reflexivity | split; reflexivity]. }
    destruct Hrun as (w' & Hp & Htr' & Hrc'). rewrite Hp.
    assert (Hw' : written w' = written w ++ [chunkWrite ch c]).
    { rewrite (written_app w1 w' _ Htr'), (written_app w w1 _ Htr1).
      simpl. rewrite app_nil_r. reflexivity. }
    assert (Hn : List.length (written w') = S n).
    { rewrite Hw', length_app. simpl. subst n. lia. }
    destruct (IH t w' Hc) as (w2 & Hrest & Hw2 & Hrc2).
    + intros i Hi. rewrite Hn.
      replace (S n + i)%nat with (n + S i)%nat by lia.
      apply Hall. simpl. lia.
    + exists w2. split; [exact Hrest |]. split.
      * rewrite Hw2, Hw', <- app_assoc. reflexivity.
      * rewrite Hrc2, Hrc'.
        unfold chunkPromise, _writeToCharacteristic, bind, writeValue in Hcp.
        rewrite Hc in Hcp. cbn in Hcp. injection Hcp as _ <-. reflexivity.
Qed.

(** Code units that are not surrogates. *)
Definition surrogateFree (s : jsstring) : Prop :=
  Forall (fun c => c < 0xD800 \/ 0xE000 <= c) s.

(** Without surrogates the encoder works code unit by code unit. *)
Lemma encode_app (a b : jsstring) :
  surrogateFree a -> encode (a ++ b) = encode a ++ encode b.
Proof.
  induction 1 as [|c a Hc _ IH]; [reflexivity |].
  cbn [app encode].
  destruct (c <? 128); [rewrite IH; reflexivity |].
  destruct (c <? 2048); [rewrite IH; reflexivity |].
  replace ((55296 <=? c) && (c <? 56320)) with false
    by (symmetry; apply andb_false_iff;
        destruct (Z.leb_spec 55296 c), (Z.ltb_spec c 56320); auto; lia).
  replace ((56320 <=? c) && (c <? 57344)) with false
    by (symmetry; apply andb_false_iff;
        destruct (Z.leb_spec 56320 c), (Z.ltb_spec c 57344); auto; lia).
  rewrite IH. reflexivity.
Qed.

Lemma encode_concat (chunks : list jsstring) :
  Forall surrogateFree chunks ->
  encode (List.concat chunks) = List.concat (map encode chunks).
Proof.
  induction 1 as [|c cs Hc _ IH]; [reflexivity |].
  simpl. rewrite (encode_app _ _ Hc), IH. reflexivity.
Qed.

(** The bytes handed to [writeValue], call after call. *)
Definition bytesWritten (tr : list TransportEvent) : list Z :=
  flat_map (fun e => match e with
                     | WriteValue _ bytes => bytes
                     | WriteSettled _ _ => []
                     end) tr.

Lemma bytesWritten_chunks (ch : Characteristic) (chunks : list jsstring) :
  bytesWritten (map (chunkWrite ch) chunks) = List.concat (map encode chunks).
Proof.
  induction chunks as [|c cs IH]; [reflexivity |].
  cbn [map List.concat]. rewrite <- IH. reflexivity.
Qed.

(** X15: when every write is fulfilled and the page does not disconnect,
    [send] writes every chunk, in order, and its promise is fulfilled with
    the instance unchanged; and for a message without U+2028, U+2029 and
    surrogates the bytes written, call after call, are the UTF-8 encoding
    of the message followed by the separator. *)
Theorem send_delivers_whole_message (env : Environment) (data : Prim)
    (t : BluetoothTerminal) (w : World) (ch : Characteristic)
    (chunks : list jsstring) :
  _characteristic t = Some ch ->
  coerced data <> [] ->
  _splitByLength (coerced data ++ _sendSeparator t)
    (_maxCharacteristicValueLength t) = Ok (Some chunks) ->
  (forall i, (i < List.length chunks)%nat ->
     writeSettles env (List.length (written w) + i) = Fulfilled tt /\
     disconnectsDuring env (List.length (written w) + i) = false) ->
  exists w2,
    settle (send env data) t w = (Ok (Fulfilled tt), t, w2) /\
    written w2 = written w ++ map (chunkWrite ch) chunks /\
    (separatorFree (coerced data ++ _sendSeparator t) ->
     surrogateFree (coerced data ++ _sendSeparator t) ->
     bytesWritten (map (chunkWrite ch) chunks) =
       encode (coerced data ++ _sendSeparator t)).
Proof.
  intros Hc Hdata Hsplit Hall.
  destruct (send_runs_chain env data t w ch chunks Hc Hdata Hsplit) as [_ Hsend].
  destruct (remaining_all_fulfilled env ch chunks t w Hc Hall)
    as (w2 & Hrun & Hw2 & _).
  exists w2. rewrite Hsend, Hrun. split; [reflexivity |]. split; [exact Hw2 |].
  intros Hfree Hsur.
  assert (HL : (0 < _maxCharacteristicValueLength t)%nat).
  { unfold _splitByLength in Hsplit.
    destruct (_maxCharacteristicValueLength t); [discriminate | lia]. }
  assert (Hcat : List.concat chunks = coerced data ++ _sendSeparator t).
  { destruct (matchAll_tiles _ _ HL (separatorFree_group _ Hfree)) as [Hcat _].
    unfold _splitByLength in Hsplit.
    destruct (_maxCharacteristicValueLength t); [lia |].
    destruct (matchAll _ _) eqn:E; [discriminate |].
    injection Hsplit as <-. exact Hcat. }
  rewrite bytesWritten_chunks, <- encode_concat, Hcat; [reflexivity |].
  apply Forall_concat. rewrite Hcat. exact Hsur.
Qed.

(** A page and a transport where every write succeeds. *)
Definition calmEnv : Environment :=
  mkEnvironment None (fun _ => Pending) (fun _ => Pending) (fun _ => Pending)
    (fun _ => Pending) (fun _ => Fulfilled tt) (fun _ => false).

Lemma send_delivers_whole_message_witness :
  exists w2,
    settle (send calmEnv (PStr (lit "abcdefghijklmnopqrstuvwxy")))
      (connectedTerminal someDevice 7%nat) newWorld =
      (Ok (Fulfilled tt), connectedTerminal someDevice 7%nat, w2) /\
    bytesWritten (written w2) = encode (lit "abcdefghijklmnopqrstuvwxy" ++ [10]).
Proof.
  destruct (send_delivers_whole_message calmEnv
              (PStr (lit "abcdefghijklmnopqrstuvwxy"))
              (connectedTerminal someDevice 7%nat) newWorld 7%nat
              [lit "abcdefghijklmnopqrst"; lit "uvwxy" ++ [10]])
    as (w2 & Hrun & Hw & Hbytes).
  - reflexivity.
  - discriminate.
  - reflexivity.
  - intros i _. split; reflexivity.
  - exists w2. split; [exact Hrun |].
    rewrite Hw. simpl written at 1. cbn [app].
    apply Hbytes.
    + repeat constructor; discriminate.
    + repeat constructor; left; reflexivity.
Defined.

(** ** Sessions: disconnecting, connecting, reconnecting *)

(** The fields of the instance that are not the session: everything but
    the remembered device and the cached characteristic. *)
Definition configOf (t : BluetoothTerminal) :=
  (_receiveBuffer t, _maxCharacteristicValueLength t, _deviceId t,
   _rfIdNumber t, _serviceUuid t, _characteristicUuid t,
   _receiveSeparator t, _sendSeparator t).

(** Unfolds the session code down to the outcomes the environment
    decides, leaving the logged strings alone. *)
Ltac run_all :=
  cbv beta iota zeta delta
    [settle connect _connectToDevice _requestBluetoothDevice requestDevice
     try_catch catch_ then_ _connectDeviceAndCacheCharacteristic
     _startNotifications _stopNotifications connectGatt lastCharacteristic
     bind this ret resolve reject throw set_world set_characteristic
     set_device _log _handleDisconnection getDeviceName
     _characteristic _device gattConnected set_gattConnected
     addDisconnectionListener addValueListener removeValueListener configOf
     _receiveBuffer _maxCharacteristicValueLength _deviceId _rfIdNumber
     _serviceUuid _characteristicUuid _receiveSeparator _sendSeparator
     console transport received disconnectionListener valueListeners
     lastLogged].

(** Case analysis on every outcome the goal still branches on. *)
Ltac split_cases :=
  repeat match goal with
         | |- context [match ?x with _ => _ end] =>
             lazymatch x with
             | context [match _ with _ => _ end] => fail
             | _ => destruct x
             end
         end.

(** X16: [disconnect()] never throws and never writes.  Afterwards no
    device is remembered and no characteristic cached, the notification
    handler is off the characteristic that was cached, and, if a device
    was remembered, its disconnection handler is removed and its GATT
    server disconnected.  The device state ([_deviceId], [_rfIdNumber]),
    the receive buffer and the configuration are kept.  A second
    [disconnect()] does nothing at all, and [getDeviceName()] then
    returns the empty string. *)
Theorem disconnect_forgets_session (t : BluetoothTerminal) (w : World) :
  exists t' w',
    disconnect t w = (Ok tt, t', w') /\
    _device t' = None /\ _characteristic t' = None /\
    configOf t' = configOf t /\
    transport w' = transport w /\ received w' = received w /\
    (forall c, _characteristic t = Some c -> ~ In c (valueListeners w')) /\
    (_device t <> None ->
     gattConnected w' = false /\ disconnectionListener w' = false) /\
    disconnect t' w' = (Ok tt, t', w') /\
    getDeviceName t' w' = (Ok [], t', w').
Proof.
  assert (Hremoved : forall c vl,
            ~ In c (filter (fun c' => negb (Nat.eqb c c')) vl)).
  { intros c vl Hin. apply filter_In in Hin as [_ Hc].
    rewrite Nat.eqb_refl in Hc. discriminate. }
  destruct t as [rb ml [dev|] [ch|] did rf su cu rs ss];
    destruct w as [co tr rc dl vl [|]];
    (do 2 eexists; split; [reflexivity |]); cbn;
    repeat (split; [reflexivity |]);
    (split; [intros c Hc; try discriminate; injection Hc as <-; apply Hremoved |]);
    (split; [intros Hd; try congruence; split; reflexivity |]);
    split; reflexivity.
Qed.

(** X17: a failure after the device has been chosen rejects the promise
    of [connect()] with the error of the failing step, which is also the
    last thing logged; nothing is written.  This holds for a rejection of
    [gatt.connect()], of [getPrimaryServices()], of the
    [getCharacteristic()] of the last service and of
    [startNotifications()], and for a server without services, where the
    error is the [TypeError] of calling [startNotifications] on undefined.
    In each case the chosen device stays remembered. *)
Theorem connect_failures_reject (env : Environment) (t : BluetoothTerminal)
    (w : World) (d : Device) :
  _device t = None -> _characteristic t = None ->
  bluetooth env = Some (Fulfilled d) ->
  forall failure,
    (gattConnect env d = Rejected failure \/
     (exists server,
        gattConnect env d = Fulfilled server /\
        (getPrimaryServices env server = Rejected failure \/
         (getPrimaryServices env server = Fulfilled [] /\
          failure = TypeError_ "startNotifications") \/
         (exists services service,
            getPrimaryServices env server = Fulfilled (services ++ [service]) /\
            (getCharacteristic env service = Rejected failure \/
             exists c, getCharacteristic env service = Fulfilled c /\
                       startNotifications env c = Rejected failure))))) ->
    exists t' w',
      settle (connect env) t w = (Ok (Rejected failure), t', w') /\
      lastLogged w' = [LErr failure] /\
      transport w' = transport w /\
      _device t' = Some d.
Proof.
  intros Hd Hc Hb failure Hfail.
  destruct t as [rb ml dev chr did rf su cu rs ss]. simpl in Hd, Hc. subst dev chr.
  destruct w as [co tr rc dl vl gc].
  assert (Hlast : forall (l : list (list LogArg)) x, last (l ++ [x]) [] = x)
    by (intros; apply last_last).
  assert (Hfold : forall services service,
            fold_left (fun (_ : option Service) s => Some s)
              (services ++ [service]) None = Some service)
    by (intros; rewrite fold_left_app; reflexivity).
  run_all. rewrite Hb.
  destruct Hfail as [Hg | (server & Hg & [Hs | [[Hs ->] | (services & service & Hs & [Hch | (c & Hch & Hn)])]])];
    destruct gc; run_all; rewrite Hg; run_all;
    try (rewrite Hs; run_all);
    try (rewrite Hfold; run_all; rewrite Hch; run_all);
    try (rewrite Hn; run_all);
    do 2 eexists; (split; [reflexivity |]); run_all;
    (split; [apply Hlast | split; reflexivity]).
Qed.

Lemma connect_failures_reject_witness :
  exists t' w',
    settle (connect
              (mkEnvironment (Some (Fulfilled someDevice))
                 (fun _ => Fulfilled 1%nat) (fun _ => Fulfilled [])
                 (fun _ => Pending) (fun _ => Pending) (fun _ => Pending)
                 (fun _ => false)))
      newTerminal newWorld =
      (Ok (Rejected (TypeError_ "startNotifications")), t', w') /\
    _device t' = Some someDevice.
Proof.
  destruct (connect_failures_reject
              (mkEnvironment (Some (Fulfilled someDevice))
                 (fun _ => Fulfilled 1%nat) (fun _ => Fulfilled [])
                 (fun _ => Pending) (fun _ => Pending) (fun _ => Pending)
                 (fun _ => false))
              newTerminal newWorld someDevice eq_refl eq_refl eq_refl
              (TypeError_ "startNotifications"))
    as (t' & w' & Hrun & _ & _ & Hdev).
  - right. exists 1%nat. split; [reflexivity |]. right. left. split; reflexivity.
  - exists t', w'. split; [exact Hrun | exact Hdev].
Defined.

(** The environment with another [navigator.bluetooth]. *)
Definition withBluetooth (b : option (Outcome Device)) (env : Environment) :
    Environment :=
  mkEnvironment b (gattConnect env) (getPrimaryServices env)
    (getCharacteristic env) (startNotifications env) (writeSettles env)
    (disconnectsDuring env).

(** X18: when every step succeeds, [connect()] on a fresh terminal is
    fulfilled with the chosen device remembered and its disconnection
    handler attached, the GATT server connected, the characteristic of the
    last service cached (whatever the other services would have answered)
    and the notification handler attached to it; nothing is written, and
    [getDeviceName()] then returns the name of the device. *)
Theorem connect_success (env : Environment) (t : BluetoothTerminal)
    (w : World) (d : Device) (server : Server) (services : list Service)
    (service : Service) (c : Characteristic) :
  _device t = None -> _characteristic t = None ->
  bluetooth env = Some (Fulfilled d) ->
  gattConnect env d = Fulfilled server ->
  getPrimaryServices env server = Fulfilled (services ++ [service]) ->
  getCharacteristic env service = Fulfilled c ->
  startNotifications env c = Fulfilled tt ->
  exists t' w',
    settle (connect env) t w = (Ok (Fulfilled tt), t', w') /\
    _device t' = Some d /\ _characteristic t' = Some c /\
    configOf t' = configOf t /\
    In c (valueListeners w') /\ disconnectionListener w' = true /\
    gattConnected w' = true /\ transport w' = transport w /\
    getDeviceName t' w' = (Ok (name d), t', w').
Proof.
  intros Hd Hc Hb Hg Hs Hch Hn.
  destruct t as [rb ml dev chr did rf su cu rs ss]. simpl in Hd, Hc. subst dev chr.
  destruct w as [co tr rc dl vl gc].
  assert (Hfold : fold_left (fun (_ : option Service) s => Some s)
                    (services ++ [service]) None = Some service)
    by (rewrite fold_left_app; reflexivity).
  run_all. rewrite Hb.
  destruct gc; run_all; rewrite Hg; run_all; rewrite Hs; run_all;
    rewrite Hfold; run_all; rewrite Hch; run_all; rewrite Hn; run_all;
    (do 2 eexists; split; [reflexivity |]; run_all;
     repeat (split; [reflexivity |]);
     split; [| repeat split];
     destruct (existsb (Nat.eqb c) vl) eqn:E;
     [apply existsb_exists in E as (x & Hin & Hx);
      apply Nat.eqb_eq in Hx; subst x; exact Hin
     | apply in_or_app; right; left; reflexivity]).
Qed.

(** An environment in which a connection succeeds. *)
Definition friendlyEnv : Environment :=
  mkEnvironment (Some (Fulfilled someDevice)) (fun _ => Fulfilled 1%nat)
    (fun _ => Fulfilled [2%nat; 3%nat]) (fun s => Fulfilled (s + 10)%nat)
    (fun _ => Fulfilled tt) (fun _ => Fulfilled tt) (fun _ => false).

Lemma connect_success_witness :
  exists t' w',
    settle (connect friendlyEnv) newTerminal newWorld = (Ok (Fulfilled tt), t', w') /\
    _characteristic t' = Some 13%nat /\
    getDeviceName t' w' = (Ok (lit "Tap"), t', w').
Proof.
  destruct (connect_success friendlyEnv newTerminal newWorld someDevice 1%nat
              [2%nat] 3%nat 13%nat eq_refl eq_refl eq_refl eq_refl eq_refl
              eq_refl eq_refl)
    as (t' & w' & Hrun & _ & Hc & _ & _ & _ & _ & _ & Hname).
  exists t', w'. split; [exact Hrun | split; [exact Hc | exact Hname]].
Defined.

(** X19: with a device remembered, [connect()] does not open the device
    chooser: it returns a promise without throwing or logging, and what
    happens does not depend on [navigator.bluetooth].  If moreover the
    GATT server is connected and a characteristic cached, nothing is
    connected or discovered again: the promise settles the way
    [startNotifications()] on the cached characteristic does, and the
    cache is kept. *)
Theorem connect_with_remembered_device (env : Environment)
    (t : BluetoothTerminal) (w : World) (d : Device) :
  _device t = Some d ->
  (exists p, connect env t w = (Ok p, t, w)) /\
  (forall b, settle (connect (withBluetooth b env)) t w =
             settle (connect env) t w) /\
  (forall c, _characteristic t = Some c -> gattConnected w = true ->
     exists w',
       settle (connect env) t w = (Ok (startNotifications env c), t, w') /\
       transport w' = transport w /\
       (startNotifications env c = Fulfilled tt -> In c (valueListeners w'))).
Proof.
  intros Hd.
  destruct t as [rb ml dev chr did rf su cu rs ss]. simpl in Hd. subst dev.
  destruct w as [co tr rc dl vl gc].
  split; [| split].
  - eexists. reflexivity.
  - intros b. reflexivity.
  - intros c Hc Hg. simpl in Hc, Hg. subst chr gc.
    run_all.
    destruct (startNotifications env c) as [[] | e |];
      eexists; (split; [reflexivity |]); run_all;
      (split; [reflexivity |]); intros H; try discriminate.
    destruct (existsb (Nat.eqb c) vl) eqn:E;
      [apply existsb_exists in E as (x & Hin & Hx);
       apply Nat.eqb_eq in Hx; subst x; exact Hin
      | apply in_or_app; right; left; reflexivity].
Qed.

Lemma connect_with_remembered_device_witness :
  exists w',
    settle (connect noBluetooth) (connectedTerminal someDevice 7%nat)
      (mkWorld [] [] [] true [7%nat] true) =
      (Ok Pending, connectedTerminal someDevice 7%nat, w') /\
    transport w' = [].
Proof.
  destruct (connect_with_remembered_device noBluetooth
              (connectedTerminal someDevice 7%nat)
              (mkWorld [] [] [] true [7%nat] true) someDevice eq_refl)
    as (_ & _ & Hshort).
  destruct (Hshort 7%nat eq_refl eq_refl) as (w' & Hrun & Htr & _).
  exists w'. split; [exact Hrun | exact Htr].
Defined.

(** X20: the reconnection that [_handleDisconnection] starts never opens
    the device chooser and never surfaces a failure: the handler does not
    throw, and its chain is never rejected, every error being logged and
    swallowed.  The chain writes nothing and changes neither the
    remembered device nor the configuration and device state.  When every
    step succeeds the characteristic of the last service is cached and
    the notification handler attached to it. *)
Theorem reconnection_swallows_failures (env : Environment) (d : Device)
    (t : BluetoothTerminal) (w : World) :
  (forall r t' w',
     settle (_handleDisconnection env d) t w = (r, t', w') ->
     (exists o, r = Ok o /\ forall e, o <> Rejected e) /\
     transport w' = transport w /\ received w' = received w /\
     _device t' = _device t /\ configOf t' = configOf t) /\
  (forall b,
     settle (_handleDisconnection (withBluetooth b env) d) t w =
     settle (_handleDisconnection env d) t w) /\
  (forall server services service c,
     gattConnected w = false ->
     gattConnect env d = Fulfilled server ->
     getPrimaryServices env server = Fulfilled (services ++ [service]) ->
     getCharacteristic env service = Fulfilled c ->
     startNotifications env c = Fulfilled tt ->
     exists t' w',
       settle (_handleDisconnection env d) t w = (Ok (Fulfilled tt), t', w') /\
       _characteristic t' = Some c /\ In c (valueListeners w') /\
       gattConnected w' = true).
Proof.
  destruct t as [rb ml dev chr did rf su cu rs ss].
  destruct w as [co tr rc dl vl gc].
  split; [| split].
  - run_all. split_cases.
    all: intros r t' w' H; injection H as <- <- <-.
    all: (split; [eexists; split; [reflexivity | intros; discriminate] |]).
    all: repeat split.
  - intros b. reflexivity.
  - intros server services service c Hgc Hg Hs Hch Hn. simpl in Hgc. subst gc.
    assert (Hfold : fold_left (fun (_ : option Service) s => Some s)
                      (services ++ [service]) None = Some service)
      by (rewrite fold_left_app; reflexivity).
    run_all. rewrite Hg. run_all. rewrite Hs. run_all.
    rewrite Hfold. run_all. rewrite Hch. run_all. rewrite Hn. run_all.
    do 2 eexists. split; [reflexivity |]. run_all.
    split; [reflexivity |]. split; [| reflexivity].
    destruct (existsb (Nat.eqb c) vl) eqn:E;
      [apply existsb_exists in E as (x & Hin & Hx);
       apply Nat.eqb_eq in Hx; subst x; exact Hin
      | apply in_or_app; right; left; reflexivity].
Qed.

Lemma reconnection_swallows_failures_witness :
  exists t' w',
    settle (_handleDisconnection friendlyEnv someDevice)
      (connectedTerminal someDevice 7%nat) newWorld =
      (Ok (Fulfilled tt), t', w') /\
    _characteristic t' = Some 13%nat.
Proof.
  destruct (proj2 (proj2 (reconnection_swallows_failures friendlyEnv someDevice
                            (connectedTerminal someDevice 7%nat) newWorld))
              1%nat [2%nat] 3%nat 13%nat eq_refl eq_refl eq_refl eq_refl eq_refl)
    as (t' & w' & Hrun & Hc & _).
  exists t', w'. split; [exact Hrun | exact Hc].
Defined.

(** ** What every history of calls keeps *)

(** The calls and events an instance goes through: the public methods,
    the three host-initiated calls, and the two events the class listens
    to.  A call that returns a promise stands for the call and the
    settlement of that promise. *)
Inductive Call : Type :=
| SetServiceUuid (uuid : Prim)
| SetCharacteristicUuid (uuid : Prim)
| SetReceiveSeparator (separator : Prim)
| SetSendSeparator (separator : Prim)
| Connect (env : Environment)
| Disconnect
| Send (env : Environment) (data : Prim)
| GetDeviceName
| SendNew
| StartPour
| TapClosed
| ValueChanged (value : list Z)
| Disconnected (env : Environment) (device : Device).

Definition after {A} (r : A * BluetoothTerminal * World) :
    BluetoothTerminal * World :=
  (instanceAfter r, worldAfter r).

(** The instance and the world after a call, whether it returned, threw,
    or its promise was rejected. *)
Definition perform (s : BluetoothTerminal * World) (c : Call) :
    BluetoothTerminal * World :=
  let (t, w) := s in
  match c with
  | SetServiceUuid uuid => after (setServiceUuid uuid t w)
  | SetCharacteristicUuid uuid => after (setCharacteristicUuid uuid t w)
  | SetReceiveSeparator separator => after (setReceiveSeparator separator t w)
  | SetSendSeparator separator => after (setSendSeparator separator t w)
  | Connect env => after (settle (connect env) t w)
  | Disconnect => after (disconnect t w)
  | Send env data => after (settle (send env data) t w)
  | GetDeviceName => after (getDeviceName t w)
  | SendNew => after (sendNew t w)
  | StartPour => after (_startPour t w)
  | TapClosed => after (_tapClosed t w)
  | ValueChanged value => after (_handleCharacteristicValueChanged value t w)
  | Disconnected env device => after (settle (_handleDisconnection env device) t w)
  end.

(** What holds of the instance and the world at any time. *)
Definition wellFormed (s : BluetoothTerminal * World) : Prop :=
  let (t, w) := s in
  List.length (_receiveSeparator t) = 1%nat /\
  List.length (_sendSeparator t) = 1%nat /\
  _maxCharacteristicValueLength t = 20%nat /\
  _receiveBuffer t = [] /\
  (_deviceId t = PNull \/ exists s, _deviceId t = PStr s) /\
  (_rfIdNumber t = PNull \/ exists n, _rfIdNumber t = PNum n) /\
  received w = [].

(** What is well formed depends on the configuration, the device state
    and the calls of [receive] only. *)
Lemma wellFormed_frame (t t' : BluetoothTerminal) (w w' : World) :
  configOf t' = configOf t -> received w' = received w ->
  wellFormed (t, w) -> wellFormed (t', w').
Proof.
  unfold configOf, wellFormed. intros Hcfg Hrc.
  injection Hcfg as -> -> -> -> _ _ -> ->. rewrite Hrc. auto.
Qed.

Lemma connect_frame (env : Environment) (t : BluetoothTerminal) (w : World) :
  forall r t' w',
    settle (connect env) t w = (r, t', w') ->
    configOf t' = configOf t /\ received w' = received w.
Proof.
  destruct t as [rb ml dev chr did rf su cu rs ss].
  destruct w as [co tr rc dl vl gc].
  run_all. split_cases.
  all: intros r t' w' H; injection H as <- <- <-; split; reflexivity.
Qed.

Lemma reconnection_frame (env : Environment) (d : Device)
    (t : BluetoothTerminal) (w : World) :
  forall r t' w',
    settle (_handleDisconnection env d) t w = (r, t', w') ->
    configOf t' = configOf t /\ received w' = received w.
Proof.
  destruct t as [rb ml dev chr did rf su cu rs ss].
  destruct w as [co tr rc dl vl gc].
  run_all. split_cases.
  all: intros r t' w' H; injection H as <- <- <-; split; reflexivity.
Qed.

Lemma disconnect_frame (t : BluetoothTerminal) (w : World) :
  forall r t' w',
    disconnect t w = (r, t', w') ->
    configOf t' = configOf t /\ received w' = received w /\
    transport w' = transport w.
Proof.
  destruct t as [rb ml [dev|] [ch|] did rf su cu rs ss];
    destruct w as [co tr rc dl vl [|]];
    intros r t' w' H; cbv in H; injection H as <- <- <-; repeat split.
Qed.

Lemma writePromise_frame (env : Environment) (n : nat) (t : BluetoothTerminal)
    (w : World) :
  forall o t' w',
    writePromise env n t w = (o, t', w') ->
    configOf t' = configOf t /\ received w' = received w.
Proof.
  intros o t' w' H. unfold writePromise in H.
  destruct (disconnectsDuring env n).
  - destruct (disconnect t w) as [[r t1] w1] eqn:Hd.
    destruct (disconnect_frame t w r t1 w1 Hd) as (Hcfg & Hrc & _).
    destruct (writeSettles env n) as [[] | e |];
      cbn in H; injection H as _ <- <-; split; [exact Hcfg | exact Hrc
                                                | exact Hcfg | exact Hrc
                                                | exact Hcfg | exact Hrc].
  - destruct (writeSettles env n) as [[] | e |];
      cbn in H; injection H as _ <- <-; split; reflexivity.
Qed.

Lemma chunkPromise_frame (env : Environment) (c : jsstring)
    (t : BluetoothTerminal) (w : World) :
  exists q w1,
    chunkPromise env c t w = (Ok q, t, w1) /\ received w1 = received w /\
    forall t0 w0 o t' w',
      q t0 w0 = (o, t', w') ->
      configOf t' = configOf t0 /\ received w' = received w0.
Proof.
  destruct (_characteristic t) as [ch |] eqn:Hc.
  - destruct (chunkPromise_connected env c t w ch Hc) as (q & w1 & Hcp & Htr & Hq).
    exists q, w1. split; [exact Hcp |]. split.
    + unfold chunkPromise, _writeToCharacteristic, bind, writeValue in Hcp.
      rewrite Hc in Hcp. cbn in Hcp. injection Hcp as _ <-. reflexivity.
    + intros t0 w0 o t' w' H. rewrite Hq in H.
      exact (writePromise_frame env _ t0 w0 o t' w' H).
  - rewrite (chunkPromise_disconnected env c t w Hc).
    do 2 eexists. split; [reflexivity |]. split; [reflexivity |].
    intros t0 w0 o t' w' H. injection H as _ <- <-. split; reflexivity.
Qed.

Lemma remaining_frame (env : Environment) (chunks : list jsstring) :
  forall t w o t' w',
    remaining env chunks t w = (o, t', w') ->
    configOf t' = configOf t /\ received w' = received w.
Proof.
  induction chunks as [|c cs IH]; intros t w o t' w' H.
  - injection H as _ <- <-. split; reflexivity.
  - simpl in H.
    destruct (chunkPromise_frame env c t w) as (q & w1 & Hcp & Hrc1 & Hq).
    rewrite Hcp in H.
    destruct (q t w1) as [[o1 t2] w2] eqn:Hrun.
    destruct (Hq t w1 o1 t2 w2 Hrun) as [Hcfg Hrc2].
    destruct o1 as [[] | e |].
    + destruct (IH t2 w2 o t' w' H) as [Hcfg' Hrc'].
      split; congruence.
    + injection H as _ <- <-. split; congruence.
    + injection H as _ <- <-. split; congruence.
Qed.

Lemma send_frame (env : Environment) (data : Prim) (t : BluetoothTerminal)
    (w : World) :
  forall r t' w',
    settle (send env data) t w = (r, t', w') ->
    configOf t' = configOf t /\ received w' = received w.
Proof.
  intros r t' w' H. unfold settle, send in H. fold (coerced data) in H.
  change (fun promise chunk => then_ promise (fun _ => chunkPromise env chunk))
    with (chained env) in H.
  destruct (coerced data) as [|x s].
  { cbn in H. injection H as _ <- <-. split; reflexivity. }
  cbn [isEmpty] in H. unfold bind at 1 in H. unfold this at 1 in H.
  unfold bind at 1 in H. unfold lift in H.
  destruct (_splitByLength ((x :: s) ++ _sendSeparator t)
              (_maxCharacteristicValueLength t)) as [chunks | e].
  2: { injection H as _ <- <-. split; reflexivity. }
  destruct (_characteristic t) as [ch |] eqn:Hc.
  2: { cbn in H. injection H as _ <- <-. split; reflexivity. }
  destruct chunks as [cs |].
  2: { cbn in H. injection H as _ <- <-. split; reflexivity. }
  unfold first, rest in H. unfold bind at 1 in H. unfold ret at 1 in H.
  unfold bind at 1 in H.
  destruct (_writeToCharacteristic env (Some ch) (hd [] cs) t w)
    as [[[q | e] t1] w1] eqn:Hw.
  2: { unfold _writeToCharacteristic, bind, writeValue in Hw. cbn in Hw.
       discriminate. }
  unfold _writeToCharacteristic, bind, writeValue in Hw. cbn in Hw.
  injection Hw as <- <- <-.
  unfold ret in H. rewrite fold_chained in H.
  match type of H with
  | context [writePromise env ?n ?t0 ?w0] =>
      destruct (writePromise env n t0 w0) as [[o1 t2] w2] eqn:Hrun;
      destruct (writePromise_frame env n t0 w0 o1 t2 w2 Hrun) as [Hcfg Hrc]
  end.
  cbn in Hrc.
  destruct o1 as [[] | e |].
  - destruct (remaining env (tl cs) t2 w2) as [[o t3] w3] eqn:Hrest.
    destruct (remaining_frame env (tl cs) t2 w2 o t3 w3 Hrest) as [Hcfg' Hrc'].
    injection H as _ <- <-. split; congruence.
  - injection H as _ <- <-. split; congruence.
  - injection H as _ <- <-. split; congruence.
Qed.

(** What the handler hands to the dispatcher: a string for a device-id
    announcement, a number for anything else. *)
Lemma decodeFrame_typed (value : list Z) (t : BluetoothTerminal) (w : World) :
  forall r t' w',
    decodeFrame value t w = (r, t', w') ->
    t' = t /\ received w' = received w /\
    forall command total handsakeCommand,
      r = Ok (command, total, handsakeCommand) ->
      if (command =? 21) && (handsakeCommand =? 253)
      then exists s, total = PStr s
      else exists n, total = PNum n.
Proof.
  intros r t' w'.
  do 10 (destruct value as [|? value];
         [intros H; cbv in H; injection H as <- <- <-;
          split; [reflexivity | split; [reflexivity | intros; discriminate]] |]).
  unfold decodeFrame. cbn [bind _log lift getUint8 nth_error].
  destruct ((z =? 21) && (z8 =? 253)) eqn:E; cbn [bind _log ret];
    intros H; injection H as <- <- <-;
    (split; [reflexivity | split; [reflexivity |]]);
    intros command total handsakeCommand Hr; injection Hr as <- <- <-;
    rewrite E; eexists; reflexivity.
Qed.

Lemma dispatcher_wellFormed (command : Z) (data : Prim) (handsakeCommand : Z)
    (t : BluetoothTerminal) (w : World) :
  (if (command =? 21) && (handsakeCommand =? 253)
   then exists s, data = PStr s
   else exists n, data = PNum n) ->
  wellFormed (t, w) ->
  wellFormed (after (_connectionDataReceive command data handsakeCommand t w)).
Proof.
  intros Hdata Hwf.
  destruct t as [rb ml dev [ch|] did rf su cu rs ss];
    unfold _connectionDataReceive;
    (destruct (Z.eqb_spec handsakeCommand 253) as [-> | Hm]; cbn [negb];
     [| exact Hwf]);
    (destruct (Z.eqb_spec command 21) as [-> | H21];
     [ destruct Hdata as (s & ->); cbn in *; intuition eauto
     | replace ((command =? 21) && (253 =? 253)) with false in Hdata
         by (symmetry; apply andb_false_iff; left; apply Z.eqb_neq; exact H21);
       destruct Hdata as (n & ->);
       repeat match goal with
              | |- context [if ?c then _ else _] => destruct c
              end;
       cbn in *; intuition eauto ]).
Qed.

Lemma handler_wellFormed (value : list Z) (t : BluetoothTerminal) (w : World) :
  wellFormed (t, w) ->
  wellFormed (after (_handleCharacteristicValueChanged value t w)).
Proof.
  intros Hwf. unfold _handleCharacteristicValueChanged, bind.
  destruct (decodeFrame value t w) as [[r t1] w1] eqn:Hd.
  destruct (decodeFrame_typed value t w r t1 w1 Hd) as (-> & Hrc & Htyped).
  assert (Hwf1 : wellFormed (t, w1))
    by (apply (wellFormed_frame t t w w1); auto).
  destruct r as [[[command total] handsakeCommand] | e]; [| exact Hwf1].
  apply dispatcher_wellFormed; [| exact Hwf1].
  apply Htyped. reflexivity.
Qed.

Lemma host_call_frame (c : JSM unit) (t : BluetoothTerminal) (w : World) :
  c = sendNew \/ c = _startPour \/ c = _tapClosed ->
  configOf (instanceAfter (c t w)) = configOf t /\
  received (worldAfter (c t w)) = received w.
Proof.
  intros [-> | [-> | ->]];
    destruct t as [rb ml dev [ch|] did rf su cu rs ss]; split; reflexivity.
Qed.

Lemma perform_wellFormed (s : BluetoothTerminal * World) (c : Call) :
  wellFormed s -> wellFormed (perform s c).
Proof.
  destruct s as [t w]. intros Hwf.
  destruct c; unfold perform, after.
  - destruct t; exact Hwf.
  - destruct t; exact Hwf.
  - destruct t as [rb ml dev chr did rf su cu rs ss].
    destruct separator as [| | b | n | | [|c [|c' l]]]; cbn in *; intuition.
  - destruct t as [rb ml dev chr did rf su cu rs ss].
    destruct separator as [| | b | n | | [|c [|c' l]]]; cbn in *; intuition.
  - destruct (settle (connect env) t w) as [[r t'] w'] eqn:H.
    destruct (connect_frame env t w r t' w' H) as [Hcfg Hrc].
    exact (wellFormed_frame t t' w w' Hcfg Hrc Hwf).
  - destruct (disconnect t w) as [[r t'] w'] eqn:H.
    destruct (disconnect_frame t w r t' w' H) as (Hcfg & Hrc & _).
    exact (wellFormed_frame t t' w w' Hcfg Hrc Hwf).
  - destruct (settle (send env data) t w) as [[r t'] w'] eqn:H.
    destruct (send_frame env data t w r t' w' H) as [Hcfg Hrc].
    exact (wellFormed_frame t t' w w' Hcfg Hrc Hwf).
  - destruct t as [rb ml [dev|] chr did rf su cu rs ss]; exact Hwf.
  - destruct (host_call_frame sendNew t w) as [Hcfg Hrc]; [auto |].
    exact (wellFormed_frame _ _ _ _ Hcfg Hrc Hwf).
  - destruct (host_call_frame _startPour t w) as [Hcfg Hrc]; [auto |].
    exact (wellFormed_frame _ _ _ _ Hcfg Hrc Hwf).
  - destruct (host_call_frame _tapClosed t w) as [Hcfg Hrc]; [auto |].
    exact (wellFormed_frame _ _ _ _ Hcfg Hrc Hwf).
  - apply handler_wellFormed. exact Hwf.
  - destruct (settle (_handleDisconnection env device) t w) as [[r t'] w'] eqn:H.
    destruct (reconnection_frame env device t w r t' w' H) as [Hcfg Hrc].
    exact (wellFormed_frame t t' w w' Hcfg Hrc Hwf).
Qed.

(** X21: what every instance keeps, whatever the calls made on it and
    the events it receives, in any order and with any arguments, from its
    construction on.  Both separators are one character long; the maximal
    chunk length is 20; the receive buffer is empty and [receive] has
    never been called; [_deviceId] is null or a string and [_rfIdNumber]
    is null or a number. *)
Theorem every_history_keeps_instance_well_formed
    (serviceUuid characteristicUuid receiveSeparator sendSeparator : Prim)
    (t0 : BluetoothTerminal) (calls : list Call) :
  construct serviceUuid characteristicUuid receiveSeparator sendSeparator = Ok t0 ->
  wellFormed (fold_left perform calls (t0, newWorld)).
Proof.
  intros Hnew.
  assert (H0 : wellFormed (t0, newWorld)).
  { unfold construct, constructor, bind, setServiceUuid, setCharacteristicUuid,
      set_serviceUuid, set_characteristicUuid in Hnew.
    cbn [unconfigured _receiveBuffer _maxCharacteristicValueLength _device
         _characteristic _deviceId _rfIdNumber _serviceUuid _characteristicUuid
         _receiveSeparator _sendSeparator] in Hnew.
    destruct (orDefault receiveSeparator (PStr lf)) as [| | b | n | | [|r [|r' l]]];
      try discriminate.
    destruct (orDefault sendSeparator (PStr lf)) as [| | b | n | | [|s [|s' l]]];
      try discriminate.
    cbn in Hnew. injection Hnew as <-. cbn. intuition. }
  revert H0. generalize (t0, newWorld).
  induction calls as [|c calls IH]; intros s Hs; [exact Hs |].
  simpl. apply IH. apply perform_wellFormed. exact Hs.
Qed.

Lemma every_history_keeps_instance_well_formed_witness :
  wellFormed
    (fold_left perform
       [Connect friendlyEnv; SetSendSeparator (PStr (lit "ab"));
        ValueChanged [21; 0; 0; 0; 1; 0; 0; 0; 0; 253; 10];
        Send calmEnv (PStr (lit "hello")); Disconnect]
       (newTerminal, newWorld)).
Proof.
  apply (every_history_keeps_instance_well_formed PUndefined PUndefined
           PUndefined PUndefined).
  reflexivity.
Defined.

(** ** What a notification can cause *)

Lemma dispatcher_reply (command : Z) (data : Prim) (handsakeCommand : Z)
    (t : BluetoothTerminal) (w : World) :
  exists t' w',
    _connectionDataReceive command data handsakeCommand t w = (Ok tt, t', w') /\
    (transport w' = transport w \/
     exists ch payload,
       _characteristic t = Some ch /\ handsakeCommand = 253 /\
       In command [21; 41; 42; 43; 44] /\
       transport w' = transport w ++ [WriteValue ch (frame command payload)]).
Proof.
  destruct t as [rb ml dev [ch|] did rf su cu rs ss];
    unfold _connectionDataReceive;
    (destruct (Z.eqb_spec handsakeCommand 253) as [-> | Hm]; cbn [negb];
     [| do 2 eexists; split; [reflexivity | left; reflexivity]]);
    (destruct (Z.eqb_spec command 21) as [-> | H21];
     [| destruct (Z.eqb_spec command 31) as [-> | H31];
        [| destruct (Z.eqb_spec command 41) as [-> | H41];
           [| destruct (Z.eqb_spec command 42) as [-> | H42];
              [| destruct (Z.eqb_spec command 43) as [-> | H43];
                 [| destruct (Z.eqb_spec command 44) as [-> | H44]]]]]]);
    repeat match goal with
           | |- context [if ?c then _ else _] => destruct c
           end;
    (do 2 eexists; split; [reflexivity |]);
    first [ left; reflexivity
          | right; do 2 eexists;
            split; [reflexivity |]; split; [reflexivity |];
            split; [simpl; tauto | reflexivity] ].
Qed.

(** X22: what one notification can cause.  The handler either returns
    normally or ends in the [RangeError] of a data view shorter than ten
    bytes; and it either writes nothing or writes exactly one frame built
    by the encoder, on the cached characteristic, which happens only for
    the commands 21, 41, 42, 43 and 44 with marker 253.  So an RFID frame,
    a pour notification or an unknown command is never answered, and no
    notification is answered twice. *)
Theorem notification_causes_at_most_one_frame (value : list Z)
    (t : BluetoothTerminal) (w : World) :
  exists r t' w',
    _handleCharacteristicValueChanged value t w = (r, t', w') /\
    (r = Ok tt \/ (r = Throw RangeError_ /\ (List.length value < 10)%nat)) /\
    (transport w' = transport w \/
     exists ch command payload,
       _characteristic t = Some ch /\
       nth_error value 0 = Some command /\ nth_error value 9 = Some 253 /\
       In command [21; 41; 42; 43; 44] /\
       transport w' = transport w ++ [WriteValue ch (frame command payload)]).
Proof.
  destruct (Nat.lt_ge_cases (List.length value) 10) as [Hlen | Hlen].
  - destruct (decodeFrame_short value t w Hlen) as (w0 & Hd & Htr & _).
    exists (Throw RangeError_), t, w0.
    unfold _handleCharacteristicValueChanged, bind. rewrite Hd.
    split; [reflexivity |]. split; [right; auto | left; exact Htr].
  - destruct (decodeFrame_long value t w Hlen)
      as (c & total & m & w0 & Hd & H0 & H9 & Htr & _).
    destruct (dispatcher_reply c total m t w0) as (t' & w' & Hrun & Hreply).
    exists (Ok tt), t', w'.
    unfold _handleCharacteristicValueChanged, bind. rewrite Hd.
    split; [exact Hrun |]. split; [left; reflexivity |].
    destruct Hreply as [Hsame | (ch & payload & Hc & -> & Hin & Hw)].
    + left. congruence.
    + right. exists ch, c, payload. rewrite <- Htr. auto.
Qed.

(** X23: [_stopNotifications] undoes what [_startNotifications] did.
    After notifications have been started on a characteristic the handler
    is attached to it; when the promise of [stopNotifications()] is then
    fulfilled the handler is attached no longer, and when it is rejected
    the rejection is passed on and the handler stays.  Neither call
    writes, and on undefined both throw a [TypeError]. *)
Theorem stop_undoes_start (env : Environment)
    (stops : Characteristic -> Outcome unit) (c : Characteristic)
    (t : BluetoothTerminal) (w : World) :
  startNotifications env c = Fulfilled tt ->
  exists w1,
    settle (_startNotifications env (Some c)) t w = (Ok (Fulfilled tt), t, w1) /\
    In c (valueListeners w1) /\ transport w1 = transport w /\
    (stops c = Fulfilled tt ->
     exists w2,
       settle (_stopNotifications stops (Some c)) t w1 =
         (Ok (Fulfilled tt), t, w2) /\
       ~ In c (valueListeners w2) /\ transport w2 = transport w) /\
    (forall e, stops c = Rejected e ->
     exists w2,
       settle (_stopNotifications stops (Some c)) t w1 = (Ok (Rejected e), t, w2) /\
       valueListeners w2 = valueListeners w1) /\
    (exists w2, _stopNotifications stops None t w1 =
                  (Throw (TypeError_ "stopNotifications"), t, w2)) /\
    (exists w2, _startNotifications env None t w =
                  (Throw (TypeError_ "startNotifications"), t, w2)).
Proof.
  intros Hn.
  destruct w as [co tr rc dl vl gc].
  run_all. rewrite Hn. run_all.
  eexists. split; [reflexivity |]. run_all.
  split; [| split; [reflexivity | split; [| split; [| split]]]].
  - destruct (existsb (Nat.eqb c) vl) eqn:E;
      [apply existsb_exists in E as (x & Hin & Hx);
       apply Nat.eqb_eq in Hx; subst x; exact Hin
      | apply in_or_app; right; left; reflexivity].
  - intros Hs. rewrite Hs. eexists. split; [reflexivity |]. run_all.
    split; [| reflexivity].
    intros Hin. apply filter_In in Hin as [_ Hc].
    rewrite Nat.eqb_refl in Hc. discriminate.
  - intros e Hs. rewrite Hs. eexists. split; reflexivity.
  - eexists. reflexivity.
  - eexists. reflexivity.
Qed.

Lemma stop_undoes_start_witness :
  exists w1 w2,
    settle (_startNotifications friendlyEnv (Some 7%nat))
      (connectedTerminal someDevice 7%nat) newWorld =
      (Ok (Fulfilled tt), connectedTerminal someDevice 7%nat, w1) /\
    settle (_stopNotifications (fun _ => Fulfilled tt) (Some 7%nat))
      (connectedTerminal someDevice 7%nat) w1 =
      (Ok (Fulfilled tt), connectedTerminal someDevice 7%nat, w2) /\
    ~ In 7%nat (valueListeners w2).
Proof.
  destruct (stop_undoes_start friendlyEnv (fun _ => Fulfilled tt) 7%nat
              (connectedTerminal someDevice 7%nat) newWorld eq_refl)
    as (w1 & Hstart & _ & _ & Hstop & _).
  destruct (Hstop eq_refl) as (w2 & Hrun & Hnot & _).
  exists w1, w2. split; [exact Hstart | split; [exact Hrun | exact Hnot]].
Defined.

(** * The battery page *)

(** What has last been assigned to the element with id [target]: to its
    [innerText] a string or an error object (shown as its string form),
    or to its [innerHTML]. *)
Inductive Display : Type :=
| InnerText (text : jsstring)
| InnerTextError (error : JSError)
| InnerHTML (html : jsstring).

(** The page: whether it has an element with id [target], and what that
    element shows. *)
Record Page : Type := mkPage {
  targetExists : bool;
  targetContent : option Display
}.

Definition PageM (A : Type) : Type := Page -> Result A * Page.
Definition PagePromise (A : Type) : Type := Page -> Outcome A * Page.

(** [$target.innerText = ...] and [$target.innerHTML = ...]; [$target] is
    null when the page has no such element. *)
Definition assign (member : string) (d : Display) : PageM unit := fun p =>
  if targetExists p then (Ok tt, mkPage true (Some d))
  else (Throw (TypeError_ member), p).

(** [p.then(cb)] and [p.catch(cb)] on the page. *)
Definition thenP {A B} (p : PagePromise A) (cb : A -> PageM (PagePromise B)) :
    PagePromise B :=
  fun s =>
    match p s with
    | (Fulfilled a, s1) =>
        match cb a s1 with
        | (Ok q, s2) => q s2
        | (Throw e, s2) => (Rejected e, s2)
        end
    | (Rejected e, s1) => (Rejected e, s1)
    | (Pending, s1) => (Pending, s1)
    end.

Definition catchP {A} (p : PagePromise A) (cb : JSError -> PageM (PagePromise A)) :
    PagePromise A :=
  fun s =>
    match p s with
    | (Rejected e, s1) =>
        match cb e s1 with
        | (Ok q, s2) => q s2
        | (Throw e', s2) => (Rejected e', s2)
        end
    | r => r
    end.

(** The browser and the device as the battery page meets them. *)
Record BatteryEnvironment : Type := mkBatteryEnvironment {
  bluetoothInNavigator : bool;
  chosenDevice : Outcome Device;
  connected : Device -> Outcome Server;
  batteryService : Server -> Outcome Service;
  batteryLevel : Service -> Outcome Characteristic;
  readValue : Characteristic -> Outcome (list Z)
}.

Definition settled {A} (o : Outcome A) : PagePromise A := fun s => (o, s).

(** [readBatteryLevel()]: the chain it starts, or nothing when it returns
    early. *)
Definition readBatteryLevel (env : BatteryEnvironment) :
    PageM (option (PagePromise unit)) := fun s =>
  if negb (bluetoothInNavigator env) then
    match assign "innerText" (InnerText (lit "Bluetooth API not supported.")) s with
    | (Ok _, s1) => (Ok None, s1)
    | (Throw e, s1) => (Throw e, s1)
    end
  else
    (Ok (Some
       (catchP
          (thenP
             (thenP
                (thenP
                   (thenP
                      (thenP (settled (chosenDevice env))
                         (fun device s => (Ok (settled (connected env device)), s)))
                      (fun server s => (Ok (settled (batteryService env server)), s)))
                   (fun service s => (Ok (settled (batteryLevel env service)), s)))
                (fun characteristic s =>
                   (Ok (settled (readValue env characteristic)), s)))
             (fun value s =>
                match getUint8 value 0 with
                | Throw e => (Throw e, s)
                | Ok level =>
                    match assign "innerHTML"
                            (InnerHTML (concat (lit "Battery percentage is <b>")
                                          (PNum level) ++ lit "</b>.")) s with
                    | (Ok _, s1) => (Ok (settled (Fulfilled tt)), s1)
                    | (Throw e, s1) => (Throw e, s1)
                    end
                end))
          (fun error s =>
             match assign "innerText" (InnerTextError error) s with
             | (Ok _, s1) => (Ok (settled (Fulfilled tt)), s1)
             | (Throw e, s1) => (Throw e, s1)
             end))),
     s).

(** The call and the settlement of the chain it started. *)
Definition batteryRun (env : BatteryEnvironment) (s : Page) :
    Result (Outcome unit) * Page :=
  match readBatteryLevel env s with
  | (Ok (Some p), s1) => let (o, s2) := p s1 in (Ok o, s2)
  | (Ok None, s1) => (Ok (Fulfilled tt), s1)
  | (Throw e, s1) => (Throw e, s1)
  end.

Ltac run_battery :=
  cbv beta iota zeta delta
    [batteryRun readBatteryLevel catchP thenP settled assign
     targetExists targetContent getUint8 nth_error].

(** X24: the battery page, with its [target] element present.  Without
    Web Bluetooth the element says so and no device is requested.
    Otherwise, when every step succeeds and the value read holds a byte,
    the element shows that byte as the battery percentage; and a failure
    of any step (choosing the device, connecting, finding the service and
    the characteristic, reading, or an empty value, a [RangeError]) ends
    as the text of the element, the chain never being rejected. *)
Theorem battery_page_shows_level_or_error (env : BatteryEnvironment)
    (content : option Display) :
  (bluetoothInNavigator env = false ->
   readBatteryLevel env (mkPage true content) =
     (Ok None,
      mkPage true (Some (InnerText (lit "Bluetooth API not supported."))))) /\
  (bluetoothInNavigator env = true ->
   (forall r s, batteryRun env (mkPage true content) = (r, s) ->
      exists o, r = Ok o /\ forall e, o <> Rejected e) /\
   (forall device server service characteristic level rest,
      chosenDevice env = Fulfilled device ->
      connected env device = Fulfilled server ->
      batteryService env server = Fulfilled service ->
      batteryLevel env service = Fulfilled characteristic ->
      readValue env characteristic = Fulfilled (level :: rest) ->
      batteryRun env (mkPage true content) =
        (Ok (Fulfilled tt),
         mkPage true
           (Some (InnerHTML (lit "Battery percentage is <b>" ++
                             ToString (PNum level) ++ lit "</b>."))))) /\
   (forall failure,
      (chosenDevice env = Rejected failure \/
       exists device,
         chosenDevice env = Fulfilled device /\
         (connected env device = Rejected failure \/
          exists server,
            connected env device = Fulfilled server /\
            (batteryService env server = Rejected failure \/
             exists service,
               batteryService env server = Fulfilled service /\
               (batteryLevel env service = Rejected failure \/
                exists characteristic,
                  batteryLevel env service = Fulfilled characteristic /\
                  (readValue env characteristic = Rejected failure \/
                   (readValue env characteristic = Fulfilled [] /\
                    failure = RangeError_)))))) ->
      batteryRun env (mkPage true content) =
        (Ok (Fulfilled tt), mkPage true (Some (InnerTextError failure))))).
Proof.
  split.
  - intros Hb. unfold readBatteryLevel. rewrite Hb. reflexivity.
  - intros Hb. split; [| split].
    + run_battery. rewrite Hb. cbv beta iota delta [negb].
      repeat match goal with
             | |- context [match ?x with _ => _ end] =>
                 lazymatch x with
                 | context [match _ with _ => _ end] => fail
                 | _ => destruct x
                 end
             end.
      all: intros r s H; injection H as <- <-;
        eexists; (split; [reflexivity | intros; discriminate]).
    + intros device server service characteristic level rest H1 H2 H3 H4 H5.
      run_battery. rewrite Hb. cbv beta iota delta [negb]. rewrite H1. cbv beta iota.
      rewrite H2. cbv beta iota. rewrite H3. cbv beta iota.
      rewrite H4. cbv beta iota. rewrite H5. reflexivity.
    + intros failure Hfail.
      run_battery. rewrite Hb. cbv beta iota delta [negb].
      destruct Hfail as [H1 | (device & H1 & [H2 | (server & H2 & [H3 | (service & H3 & [H4 | (characteristic & H4 & [H5 | [H5 ->]])])])])];
        rewrite H1; cbv beta iota;
        try (rewrite H2; cbv beta iota);
        try (rewrite H3; cbv beta iota);
        try (rewrite H4; cbv beta iota);
        try (rewrite H5; cbv beta iota);
        reflexivity.
Qed.

Lemma battery_page_shows_level_or_error_witness :
  batteryRun
    (mkBatteryEnvironment true (Fulfilled someDevice) (fun _ => Fulfilled 1%nat)
       (fun _ => Fulfilled 2%nat) (fun _ => Fulfilled 3%nat)
       (fun _ => Fulfilled [87]))
    (mkPage true None) =
    (Ok (Fulfilled tt),
     mkPage true (Some (InnerHTML (lit "Battery percentage is <b>87</b>.")))).
Proof.
  apply (proj1 (proj2 (proj2 (battery_page_shows_level_or_error
           (mkBatteryEnvironment true (Fulfilled someDevice)
              (fun _ => Fulfilled 1%nat) (fun _ => Fulfilled 2%nat)
              (fun _ => Fulfilled 3%nat) (fun _ => Fulfilled [87]))
           None) eq_refl))
         someDevice 1%nat 2%nat 3%nat 87 []); reflexivity.
Defined.

(** * What the handler does not look at *)

(** X25: the handler reads the first ten bytes of a notification and
    nothing else: the terminator and whatever follows it make no
    difference, so neither the value 10 of the terminator nor the length
    11 of a frame is ever checked.  Unless the frame is a device-id
    announcement the four reserved bytes are not looked at either, and the
    payload handed to the dispatcher is, for bytes, the big-endian reading
    of bytes 1 to 4 reduced to the signed 32-bit range. *)
Theorem handler_reads_ten_bytes (t : BluetoothTerminal) (w : World) :
  (forall head tail tail',
     List.length head = 10%nat ->
     _handleCharacteristicValueChanged (head ++ tail) t w =
     _handleCharacteristicValueChanged (head ++ tail') t w) /\
  (forall command t1 t2 t3 t4 a5 a6 a7 a8 b5 b6 b7 b8 handsakeCommand,
     (command =? 21) && (handsakeCommand =? 253) = false ->
     _handleCharacteristicValueChanged
       [command; t1; t2; t3; t4; a5; a6; a7; a8; handsakeCommand] t w =
     _handleCharacteristicValueChanged
       [command; t1; t2; t3; t4; b5; b6; b7; b8; handsakeCommand] t w) /\
  (forall command t1 t2 t3 t4 t5 t6 t7 t8 handsakeCommand,
     (command =? 21) && (handsakeCommand =? 253) = false ->
     0 <= t1 < 256 -> 0 <= t2 < 256 -> 0 <= t3 < 256 -> 0 <= t4 < 256 ->
     exists w',
       decodeFrame [command; t1; t2; t3; t4; t5; t6; t7; t8; handsakeCommand] t w =
         (Ok (command, PNum (ToInt32 (bigEndian t1 t2 t3 t4)), handsakeCommand),
          t, w') /\
       - 2 ^ 31 <= ToInt32 (bigEndian t1 t2 t3 t4) < 2 ^ 31).
Proof.
  split; [| split].
  - intros head tail tail' Hlen.
    do 10 (destruct head as [|? head]; [discriminate |]).
    destruct head; [| discriminate]. reflexivity.
  - intros command t1 t2 t3 t4 a5 a6 a7 a8 b5 b6 b7 b8 handsakeCommand Hcond.
    unfold _handleCharacteristicValueChanged, decodeFrame, bind, lift, _log.
    cbn -[payload32 lit]. rewrite Hcond. reflexivity.
  - intros command t1 t2 t3 t4 t5 t6 t7 t8 handsakeCommand Hcond H1 H2 H3 H4.
    unfold decodeFrame, bind, lift, _log. cbn -[payload32 lit].
    rewrite Hcond. unfold ret. rewrite payload32_signed by assumption.
    eexists. split; [reflexivity |].
    unfold ToInt32.
    pose proof (Z.mod_pos_bound (bigEndian t1 t2 t3 t4) (2 ^ 32) ltac:(lia)).
    destruct (Z.leb_spec (2 ^ 31) (bigEndian t1 t2 t3 t4 mod 2 ^ 32)); lia.
Qed.

Lemma handler_reads_ten_bytes_witness :
  _handleCharacteristicValueChanged ([41; 0; 0; 0; 0; 0; 0; 0; 0; 253] ++ [10])
    (connectedTerminal someDevice 7%nat) newWorld =
  _handleCharacteristicValueChanged ([41; 0; 0; 0; 0; 0; 0; 0; 0; 253] ++ [99; 98])
    (connectedTerminal someDevice 7%nat) newWorld.
Proof.
  apply (proj1 (handler_reads_ten_bytes (connectedTerminal someDevice 7%nat)
                  newWorld)).
  reflexivity.
Defined.
